(** * Verification of the file-sync uploaders

    Shallow embedding of [upload_via_curl.py] and [upload_via_gh.py]:
    both scripts walk the tree under ['.'] and, file by file, look the
    path up on the remote content API, read the file, base64-encode it
    and PUT it, counting successes and errors. *)

From Stdlib Require Import List Strings.String Strings.Ascii Strings.Byte NArith ZArith Bool Lia.
From Stdlib Require Import Permutation DecimalString Floats.PrimFloat.
Import ListNotations.

Local Open Scope string_scope.

(* ================================================================= *)
(** ** Binary-to-text encoding *)

Module Base64.

Local Open Scope N_scope.

(** Modelled from the spec: the "reversible text-safe binary-to-text
    encoding" is [base64.b64encode] of Python's standard library, which
    both scripts call ([base64.b64encode(b).decode()]) but which is not
    part of the repository.  The definition below is the encoding of
    RFC 4648, section 4, that the library implements: three bytes make
    a 24-bit group that is cut into four 6-bit digits; a final group of
    one or two bytes is padded with zero bits and [=] signs. *)
Definition alphabet : string :=
  "ABCDEFGHIJKLMNOPQRSTUVWXYZabcdefghijklmnopqrstuvwxyz0123456789+/".

Definition pad : ascii := "="%char.

Definition digit_char (d : N) : ascii :=
  match String.get (N.to_nat d) alphabet with
  | Some c => c
  | None => pad
  end.

Fixpoint b64encode (bs : list byte) : string :=
  match bs with
  | [] => ""
  | [a] =>
      let n := Byte.to_N a * 65536 in
      String (digit_char (n / 262144))
        (String (digit_char ((n / 4096) mod 64))
           (String pad (String pad "")))
  | [a; b] =>
      let n := Byte.to_N a * 65536 + Byte.to_N b * 256 in
      String (digit_char (n / 262144))
        (String (digit_char ((n / 4096) mod 64))
           (String (digit_char ((n / 64) mod 64))
              (String pad "")))
  | a :: b :: c :: rest =>
      let n := Byte.to_N a * 65536 + Byte.to_N b * 256 + Byte.to_N c in
      String (digit_char (n / 262144))
        (String (digit_char ((n / 4096) mod 64))
           (String (digit_char ((n / 64) mod 64))
              (String (digit_char (n mod 64))
                 (b64encode rest))))
  end.

(** Modelled from the spec: the decoding half of the round-trip law.  It
    is performed by the remote store, not by the scripts; this is the
    strict decoder of RFC 4648 (canonical padding, no stray characters). *)
Fixpoint find_digit (c : ascii) (s : string) (i : N) : option N :=
  match s with
  | EmptyString => None
  | String c' s' => if Ascii.eqb c c' then Some i else find_digit c s' (N.succ i)
  end.

Definition char_digit (c : ascii) : option N := find_digit c alphabet 0.

Definition byte3 (n : N) : option (list byte) :=
  match Byte.of_N (n / 65536), Byte.of_N ((n / 256) mod 256), Byte.of_N (n mod 256) with
  | Some a, Some b, Some c => Some [a; b; c]
  | _, _, _ => None
  end.

Definition decode_full (c0 c1 c2 c3 : ascii) : option (list byte) :=
  match char_digit c0, char_digit c1, char_digit c2, char_digit c3 with
  | Some d0, Some d1, Some d2, Some d3 =>
      byte3 (d0 * 262144 + d1 * 4096 + d2 * 64 + d3)
  | _, _, _, _ => None
  end.

Definition decode_two (c0 c1 c2 : ascii) : option (list byte) :=
  match char_digit c0, char_digit c1, char_digit c2 with
  | Some d0, Some d1, Some d2 =>
      if (d2 mod 4 =? 0) then
        match byte3 (d0 * 262144 + d1 * 4096 + d2 * 64) with
        | Some [a; b; _] => Some [a; b]
        | _ => None
        end
      else None
  | _, _, _ => None
  end.

Definition decode_one (c0 c1 : ascii) : option (list byte) :=
  match char_digit c0, char_digit c1 with
  | Some d0, Some d1 =>
      if (d1 mod 16 =? 0) then
        match byte3 (d0 * 262144 + d1 * 4096) with
        | Some [a; _; _] => Some [a]
        | _ => None
        end
      else None
  | _, _ => None
  end.

Fixpoint b64decode (s : string) : option (list byte) :=
  match s with
  | EmptyString => Some []
  | String c0 (String c1 (String c2 (String c3 rest))) =>
      if Ascii.eqb c3 pad then
        match rest with
        | EmptyString =>
            if Ascii.eqb c2 pad then decode_one c0 c1 else decode_two c0 c1 c2
        | _ => None
        end
      else
        match decode_full c0 c1 c2 c3, b64decode rest with
        | Some g, Some bs => Some (g ++ bs)%list
        | _, _ => None
        end
  | _ => None
  end.

End Base64.

(* ================================================================= *)
(** ** Python strings and paths

    A Python [str] is modelled by the string of its bytes.  The
    functions below are the string methods and [os.path] helpers the
    scripts call, with [os.sep = "/"]. *)

Module Py.

Definition sep : ascii := "/"%char.

(** [s.startswith(p)] *)
Definition startswith (s p : string) : bool := String.prefix p s.

(** [s.endswith(p)] *)
Fixpoint endswith (s p : string) : bool :=
  String.eqb s p ||
  match s with
  | EmptyString => false
  | String _ s' => endswith s' p
  end.

(** [s.split(os.sep)]: never empty, [''.split('/') = ['']]. *)
Fixpoint split (s : string) : list string :=
  match s with
  | EmptyString => [""]
  | String c s' =>
      if Ascii.eqb c sep then "" :: split s'
      else match split s' with
           | h :: t => String c h :: t
           | [] => [String c ""]
           end
  end.

(** ['/'.join(parts)] *)
Definition join (parts : list string) : string := String.concat "/" parts.

(** [x in l] for a string [x] and a list of strings [l]. *)
Definition mem (x : string) (l : list string) : bool :=
  existsb (String.eqb x) l.

(** [k in s] for two strings: substring test. *)
Definition contains (s k : string) : bool :=
  match String.index 0 k s with
  | Some _ => true
  | None => false
  end.

(** White space of [str.strip()] in the ASCII range. *)
Definition is_space (c : ascii) : bool :=
  let n := N_of_ascii c in
  ((9 <=? n) && (n <=? 13) || (28 <=? n) && (n <=? 32))%N.

Fixpoint lstrip (s : string) : string :=
  match s with
  | EmptyString => EmptyString
  | String c s' => if is_space c then lstrip s' else s
  end.

Fixpoint rstrip (s : string) : string :=
  match s with
  | EmptyString => EmptyString
  | String c s' =>
      match rstrip s' with
      | EmptyString => if is_space c then EmptyString else String c EmptyString
      | r => String c r
      end
  end.

(** [s.strip()] *)
Definition strip (s : string) : string := rstrip (lstrip s).

(** [os.path.join(a, b)] *)
Definition path_join (a b : string) : string :=
  if startswith b "/" then b
  else if String.eqb a "" || endswith a "/" then a ++ b
  else a ++ "/" ++ b.

(** [os.path.relpath(p, '.')] on the paths [os.walk('.')] produces:
    the components of [p] without the empty and ['.'] ones, joined
    again; ['.'] when nothing is left.  ([os.listdir] never yields
    ['..'], so no component needs to be resolved upwards.) *)
Definition relpath (p : string) : string :=
  match filter (fun c => negb (String.eqb c "" || String.eqb c ".")) (split p) with
  | [] => "."
  | cs => join cs
  end.

(** [str(n)] for an [int]. *)
Definition str_of_int (z : Z) : string := NilZero.string_of_int (Z.to_int z).

(** [print(a, b, ...)]: the items separated by one space. *)
Definition print_line (items : list string) : string := String.concat " " items.

Definition always_safe : string :=
  "ABCDEFGHIJKLMNOPQRSTUVWXYZabcdefghijklmnopqrstuvwxyz0123456789_.-~".

Fixpoint char_in (c : ascii) (s : string) : bool :=
  match s with
  | EmptyString => false
  | String c' s' => Ascii.eqb c c' || char_in c s'
  end.

Definition hex_digit (n : N) : ascii :=
  match String.get (N.to_nat n) "0123456789ABCDEF" with
  | Some c => c
  | None => "0"%char
  end.

(** [quote(s, safe)]: every byte outside the unreserved set and [safe]
    becomes [%XX]. *)
Fixpoint quote (safe s : string) : string :=
  match s with
  | EmptyString => EmptyString
  | String c s' =>
      if char_in c always_safe || char_in c safe then String c (quote safe s')
      else
        let n := N_of_ascii c in
        String "%" (String (hex_digit (n / 16)) (String (hex_digit (n mod 16)) (quote safe s')))
  end.

End Py.

(* ================================================================= *)
(** ** Decoded JSON values *)

Module Json.

(** What [json.loads] returns: [None], [bool], [int], [float], [str],
    [list] or [dict].  A dict is kept as its items in insertion order;
    a later binding of a key shadows an earlier one. *)
#[local] Unset Elimination Schemes.
Inductive json : Type :=
| JNull
| JBool (b : bool)
| JInt (z : Z)
| JFloat (f : PrimFloat.float)
| JStr (s : string)
| JList (l : list json)
| JDict (items : list (string * json)).
#[local] Set Elimination Schemes.

(** Python truth value, as tested by [if sha:]. *)
Definition truthy (j : json) : bool :=
  match j with
  | JNull => false
  | JBool b => b
  | JInt z => negb (Z.eqb z 0)
  | JFloat f => negb (PrimFloat.eqb f PrimFloat.zero)
  | JStr s => negb (String.eqb s "")
  | JList l => match l with [] => false | _ => true end
  | JDict items => match items with [] => false | _ => true end
  end.

(** The binding of [k] in a dict, the last one written. *)
Fixpoint lookup (k : string) (items : list (string * json)) : option json :=
  match items with
  | [] => None
  | (k', v) :: rest =>
      match lookup k rest with
      | Some v' => Some v'
      | None => if String.eqb k k' then Some v else None
      end
  end.

(** [obj.get(k)]: [None] (raises [AttributeError]) unless [obj] is a
    dict; a missing key gives Python's [None]. *)
Definition py_get (obj : json) (k : string) : option json :=
  match obj with
  | JDict items =>
      match lookup k items with
      | Some v => Some v
      | None => Some JNull
      end
  | _ => None
  end.

(** [k in obj] for a string [k]: key of a dict, element of a list,
    substring of a string; [None] (raises [TypeError]) otherwise. *)
Definition py_in (k : string) (obj : json) : option bool :=
  match obj with
  | JDict items => Some (match lookup k items with Some _ => true | None => false end)
  | JList l => Some (existsb (fun e => match e with JStr s => String.eqb s k | _ => false end) l)
  | JStr s => Some (Py.contains s k)
  | _ => None
  end.

(** [obj[k]] for a string [k]: [None] when it raises ([KeyError] on a
    dict without the key, [TypeError] on anything that is not a dict). *)
Definition py_getitem (obj : json) (k : string) : option json :=
  match obj with
  | JDict items => lookup k items
  | _ => None
  end.

End Json.

(* ================================================================= *)
(** ** The environment: processes, files, the directory tree *)

Module Os.

Import Json.

(** [subprocess.CompletedProcess] with [capture_output=True, text=True]. *)
Record CompletedProcess : Type := mkCompleted {
  returncode : Z;
  stdout : string;
  stderr : string
}.

(** What a spawned child does: it ends after [secs] seconds with a
    status and its output, or it never ends. *)
Inductive behaviour : Type :=
| Finishes (secs : Z) (cp : CompletedProcess)
| Never.

(** The three ways a call of [subprocess.run] goes: it returns, it
    raises [TimeoutExpired], or it waits for ever. *)
Inductive run_result : Type :=
| Completed (cp : CompletedProcess)
| TimeoutExpired
| Blocked.

(** [subprocess.run(cmd, timeout=t)] waits at most [t] seconds;
    without a timeout it waits until the child ends. *)
Definition wait (timeout : option Z) (b : behaviour) : run_result :=
  match b, timeout with
  | Finishes secs cp, Some t => if (secs <=? t)%Z then Completed cp else TimeoutExpired
  | Finishes _ cp, None => Completed cp
  | Never, Some _ => TimeoutExpired
  | Never, None => Blocked
  end.

(** [open(fp,'rb').read()]: the bytes, or the text of the exception. *)
Inductive read_result : Type :=
| ReadOk (data : list byte)
| ReadError (msg : string).

(** A directory tree, as [os.scandir] lists it. *)
#[local] Unset Elimination Schemes.
Inductive entry : Type :=
| File (name : string)
| Dir (name : string) (children : list entry).
#[local] Set Elimination Schemes.

Definition name_of (e : entry) : string :=
  match e with
  | File n => n
  | Dir n _ => n
  end.

Definition is_dir (e : entry) : bool :=
  match e with
  | File _ => false
  | Dir _ _ => true
  end.

Definition dirnames (es : list entry) : list string :=
  map name_of (filter is_dir es).

Definition filenames (es : list entry) : list string :=
  map name_of (filter (fun e => negb (is_dir e)) es).

(** [os.walk(top)], top-down: the triple of the directory itself, then
    the walk of each sub-directory in turn. *)
Fixpoint walk (top : string) (e : entry) : list (string * list string * list string) :=
  match e with
  | File _ => []
  | Dir _ children =>
      (top, dirnames children, filenames children)
        :: flat_map (fun c => walk (Py.path_join top (name_of c)) c) children
  end.

Definition os_walk (top : string) (children : list entry) :
  list (string * list string * list string) :=
  walk top (Dir top children).

(** What the scripts do that can be seen from outside. *)
Inductive event : Type :=
| EvRun (cmd : list string) (timeout : option Z) (r : run_result)
| EvOpen (fp : string) (r : read_result)
| EvDump (path : string) (payload : json)
| EvPrint (to_stderr : bool) (line : string).

End Os.

(* ================================================================= *)
(** ** Running a script: state, exit and blocking *)

Module Run.

Import Os Json.

(** The world outside the interpreter.  [spawn] starts a child process,
    [open_rb] reads a file, [write_json] is [json.dump] into a file;
    [json_loads] and [str] are Python's [json.loads] ([None] when it
    raises) and [str()] on a decoded value; [script_abspath] is
    [os.path.abspath(__file__)]. *)
Record Env : Type := mkEnv {
  World : Type;
  spawn : list string -> World -> behaviour * World;
  open_rb : string -> World -> read_result * World;
  write_json : string -> json -> World -> World;
  json_loads : string -> option json;
  str : json -> string;
  script_abspath : string
}.

Section Monad.

Context {E : Env}.

(** The module globals [success] and [errors], the world, and what has
    been done so far (oldest event first). *)
Record state : Type := mkState {
  world : World E;
  out : list event;
  success : Z;
  errors : Z
}.

(** A statement runs to its end, leaves through [sys.exit], or blocks. *)
Inductive result (A : Type) : Type :=
| Ret (a : A) (st : state)
| Exit (code : Z) (st : state)
| Hang (st : state).

Definition M (A : Type) : Type := state -> result A.

Definition ret {A} (a : A) : M A := fun st => Ret A a st.

Definition bind {A B} (m : M A) (k : A -> M B) : M B :=
  fun st =>
    match m st with
    | Ret _ a st' => k a st'
    | Exit _ code st' => Exit B code st'
    | Hang _ st' => Hang B st'
    end.

Definition state_of {A} (r : result A) : state :=
  match r with
  | Ret _ _ st => st
  | Exit _ _ st => st
  | Hang _ st => st
  end.



Definition exit_code {A} (r : result A) : option Z :=
  match r with
  | Exit _ code _ => Some code
  | _ => None
  end.

Definition record (e : event) (st : state) : state :=
  mkState (world st) (out st ++ [e]) (success st) (errors st).

(** [subprocess.run(cmd, capture_output=True, text=True, timeout=t)];
    [None] stands for the [TimeoutExpired] exception. *)
Definition subprocess_run (cmd : list string) (timeout : option Z) :
  M (option CompletedProcess) :=
  fun st =>
    let (b, w) := spawn E cmd (world st) in
    let r := wait timeout b in
    let st' := record (EvRun cmd timeout r) (mkState w (out st) (success st) (errors st)) in
    match r with
    | Completed cp => Ret _ (Some cp) st'
    | TimeoutExpired => Ret _ None st'
    | Blocked => Hang _ st'
    end.

(** [with open(fp,'rb') as f: f.read()] *)
Definition read_file (fp : string) : M read_result :=
  fun st =>
    let (r, w) := open_rb E fp (world st) in
    Ret _ r (record (EvOpen fp r) (mkState w (out st) (success st) (errors st))).

(** [with open(path,'w') as t: json.dump(payload, t)] *)
Definition dump_file (path : string) (payload : json) : M unit :=
  fun st =>
    let w := write_json E path payload (world st) in
    Ret _ tt (record (EvDump path payload) (mkState w (out st) (success st) (errors st))).

(** [print(a, b, ...)] and [print(..., file=sys.stderr)] *)
Definition print (items : list string) : M unit :=
  fun st => Ret _ tt (record (EvPrint false (Py.print_line items)) st).

Definition eprint (items : list string) : M unit :=
  fun st => Ret _ tt (record (EvPrint true (Py.print_line items)) st).

Definition sys_exit {A} (code : Z) : M A := fun st => Exit A code st.

Definition set_success (n : Z) : M unit :=
  fun st => Ret _ tt (mkState (world st) (out st) n (errors st)).

Definition set_errors (n : Z) : M unit :=
  fun st => Ret _ tt (mkState (world st) (out st) (success st) n).

Definition get_success : M Z := fun st => Ret _ (success st) st.

Definition get_errors : M Z := fun st => Ret _ (errors st) st.

(** [for x in l: body(x)]; a [continue] is the body returning early. *)
Fixpoint for_each {A} (l : list A) (body : A -> M unit) : M unit :=
  match l with
  | [] => ret tt
  | x :: rest => bind (body x) (fun _ => for_each rest body)
  end.

(** The interpreter starts with nothing done. *)
Definition start (w : World E) : state := mkState w [] 0%Z 0%Z.

End Monad.

Arguments state : clear implicits.
Arguments result : clear implicits.
Arguments M : clear implicits.
Arguments Ret {E A}.
Arguments Exit {E A}.
Arguments Hang {E A}.

End Run.

Notation "x <- c ;; k" := (Run.bind c (fun x => k))
  (at level 61, c at next level, right associativity).
Notation "c ;;; k" := (Run.bind c (fun _ => k))
  (at level 61, right associativity).

(* ================================================================= *)
(** ** [upload_via_curl.py] *)

Module Curl.

Import Os Json Run.

Section Script.

Context {E : Env}.

Definition ROOT : string := ".".
Definition REPO : string := "dahemar/baptiste2".

Definition gh_get_cmd (path : string) : list string :=
  ["gh"; "api"; "/repos/" ++ REPO ++ "/contents/" ++ path].

Definition gh_get (path : string) : M E CompletedProcess :=
  r <- subprocess_run (gh_get_cmd path) (Some 60%Z) ;;
  match r with
  | Some p => ret p
  | None =>
      print ["[ERROR] gh api GET timeout for " ++ path] ;;;
      ret (mkCompleted 2 "" "timeout")
  end.

Definition token_cmd : list string := ["gh"; "auth"; "token"].

Definition get_token : M E string :=
  r <- subprocess_run token_cmd (Some 10%Z) ;;
  match r with
  | None => eprint ["Could not get gh token: timeout"] ;;; sys_exit 2
  | Some p =>
      if negb (returncode p =? 0)%Z
      then eprint ["Could not get gh token"] ;;; sys_exit 2
      else ret (Py.strip (stdout p))
  end.

Definition HEADERS (TOKEN : string) : list string :=
  ["-H"; "Accept: application/vnd.github+json"; "-H"; "Authorization: token " ++ TOKEN].

(** The four [continue] tests on [rel]. *)
Definition skipped (rel : string) : bool :=
  if Py.startswith rel "astro-app/.git-submodule-backup" then true
  else if Py.startswith rel ".video_push_logs" then true
  else if Py.startswith rel "astro-app/.astro" then true
  else if Py.endswith rel ".DS_Store" then true
  else false.

(** [sha] after the lookup: [obj.get('sha')] when the call ended with
    status 0 and its output decodes, [None] in every other case. *)
Definition sha_of (p : CompletedProcess) : json :=
  if (returncode p =? 0)%Z then
    match json_loads E (stdout p) with
    | Some obj =>
        match py_get obj "sha" with
        | Some v => v
        | None => JNull
        end
    | None => JNull
    end
  else JNull.

Definition tmp : string := "/tmp/payload.json".

Definition payload_of (rel content_b64 : string) (sha : json) : json :=
  JDict (List.app
           [("message", JStr ("chore: add " ++ rel ++ " via API"));
            ("content", JStr content_b64)]
           (if truthy sha then [("sha", sha)] else [])).

Definition url_of (rel : string) : string :=
  let parts := Py.split rel in
  let path_for_url := Py.join (map (Py.quote "") parts) in
  "https://api.github.com/repos/" ++ REPO ++ "/contents/" ++ path_for_url.

Definition curl_cmd (TOKEN rel : string) : list string :=
  List.app ["curl"; "-s"; "-X"; "PUT"]
    (List.app (HEADERS TOKEN) ["-d"; "@" ++ tmp; url_of rel]).

Definition add_error : M E unit := n <- get_errors ;; set_errors (n + 1).
Definition add_success : M E unit := n <- get_success ;; set_success (n + 1).

(** The part of the loop body after the [continue] tests: look the path
    up, read the file, write the payload, PUT it, judge the answer. *)
Definition sync (TOKEN fp rel : string) : M E unit :=
  let api_path := Py.quote "/" rel in
  p <- gh_get api_path ;;
  let sha := sha_of p in
  rd <- read_file fp ;;
  match rd with
  | ReadError e => print ["[ERROR] read"; rel; e] ;;; add_error
  | ReadOk b =>
      let content_b64 := Base64.b64encode b in
      dump_file tmp (payload_of rel content_b64 sha) ;;;
      q <- subprocess_run (curl_cmd TOKEN rel) (Some 120%Z) ;;
      match q with
      | None => print ["[FAIL]"; rel; "curl timeout"] ;;; add_error
      | Some q =>
          if (returncode q =? 0)%Z then
            match json_loads E (stdout q) with
            | Some resp =>
                match py_in "content" resp with
                | Some true => print ["[OK]"; rel] ;;; add_success
                | Some false => print ["[FAIL]"; rel; Py.strip (stdout q)] ;;; add_error
                | None => print ["[FAIL]"; rel; "invalid response"] ;;; add_error
                end
            | None => print ["[FAIL]"; rel; "invalid response"] ;;; add_error
            end
          else print ["[FAIL]"; rel; Py.strip (stderr q)] ;;; add_error
      end
  end.

(** The body of [for fname in filenames]. *)
Definition process (TOKEN dirpath fname : string) : M E unit :=
  let fp := Py.path_join dirpath fname in
  let rel := Py.relpath fp in
  if skipped rel then ret tt else sync TOKEN fp rel.

Definition summary : M E unit :=
  s <- get_success ;;
  e <- get_errors ;;
  print ["Done. success="; Py.str_of_int s; "errors="; Py.str_of_int e] ;;;
  if (e >? 0)%Z then sys_exit 2 else sys_exit 0.

Definition files_loop (TOKEN : string) (root : list entry) : M E unit :=
  for_each (os_walk ROOT root) (fun '(dirpath, _, filenames) =>
    if Py.mem ".git" (Py.split dirpath) then ret tt
    else for_each filenames (process TOKEN dirpath)).

(** The module, top to bottom. *)
Definition main (root : list entry) : M E unit :=
  TOKEN <- get_token ;;
  set_success 0 ;;;
  set_errors 0 ;;;
  files_loop TOKEN root ;;;
  summary.

End Script.

End Curl.

(* ================================================================= *)
(** ** [upload_via_gh.py] *)

Module Gh.

Import Os Json Run.

Section Script.

Context {E : Env}.

Definition ROOT : string := ".".
Definition REPO : string := "dahemar/baptiste2".

Definition gh_get_cmd (path : string) : list string :=
  ["gh"; "api"; "/repos/" ++ REPO ++ "/contents/" ++ path].

(** No [timeout=] here: [subprocess.run] cannot raise [TimeoutExpired]. *)
Definition gh_get (path : string) : M E CompletedProcess :=
  r <- subprocess_run (gh_get_cmd path) None ;;
  match r with
  | Some p => ret p
  | None => fun st => Hang st   (* not reached: no timeout was given *)
  end.

Definition gh_put_cmd (path message content_b64 : string) (sha : json) : list string :=
  List.app
    ["gh"; "api"; "--method"; "PUT"; "/repos/" ++ REPO ++ "/contents/" ++ path;
     "-f"; "message=" ++ message; "-f"; "content=" ++ content_b64]
    (if truthy sha then ["-f"; "sha=" ++ str E sha] else []).

Definition gh_put (path message content_b64 : string) (sha : json) : M E CompletedProcess :=
  r <- subprocess_run (gh_put_cmd path message content_b64 sha) None ;;
  match r with
  | Some p => ret p
  | None => fun st => Hang st
  end.

(** [sha] after the lookup: [obj['sha']] when the call ended with status
    0, its output decodes and ['sha' in obj]; [None] otherwise. *)
Definition sha_of (p : CompletedProcess) : json :=
  if (returncode p =? 0)%Z then
    match json_loads E (stdout p) with
    | Some obj =>
        match py_in "sha" obj with
        | Some true =>
            match py_getitem obj "sha" with
            | Some v => v
            | None => JNull
            end
        | Some false => JNull
        | None => JNull
        end
    | None => JNull
    end
  else JNull.

Definition add_error : M E unit := n <- get_errors ;; set_errors (n + 1).
Definition add_success : M E unit := n <- get_success ;; set_success (n + 1).

(** The part of the loop body after the [continue] test. *)
Definition sync (fp rel : string) : M E unit :=
  let api_path := Py.quote "/" rel in
  rd <- read_file fp ;;
  match rd with
  | ReadError e => print ["[ERROR] read " ++ rel ++ ": " ++ e] ;;; add_error
  | ReadOk data =>
      let content_b64 := Base64.b64encode data in
      p <- gh_get api_path ;;
      let sha := sha_of p in
      let msg := "chore: add " ++ rel ++ " via API" in
      q <- gh_put api_path msg content_b64 sha ;;
      if (returncode q =? 0)%Z
      then print ["[OK] " ++ rel] ;;; add_success
      else print ["[FAIL] " ++ rel ++ " -> " ++ Py.strip (stderr q)] ;;; add_error
  end.

(** The body of [for fname in filenames]. *)
Definition process (dirpath fname : string) : M E unit :=
  let fp := Py.path_join dirpath fname in
  if String.eqb fp (script_abspath E) then ret tt
  else sync fp (Py.relpath fp).

Definition summary : M E unit :=
  s <- get_success ;;
  e <- get_errors ;;
  print ["Done. success=" ++ Py.str_of_int s ++ " errors=" ++ Py.str_of_int e] ;;;
  if (e >? 0)%Z then sys_exit 2 else sys_exit 0.

Definition files_loop (root : list entry) : M E unit :=
  for_each (os_walk ROOT root) (fun '(dirpath, _, filenames) =>
    if Py.mem ".git" (Py.split dirpath) then ret tt
    else for_each filenames (process dirpath)).

(** The module, top to bottom. *)
Definition main (root : list entry) : M E unit :=
  set_errors 0 ;;;
  set_success 0 ;;;
  files_loop root ;;;
  summary.

End Script.

End Gh.

(* ================================================================= *)
(** ** A reader for JSON text

    The theorems hold for every [json_loads]; the worked examples need
    one that runs.  This reader covers objects, arrays, strings without
    escapes, integers and the three literals, and rejects fractions,
    exponents and escape sequences, which the examples do not use. *)

Module JsonText.

Import Json.

Definition dq : ascii := "034"%char.
Definition backslash : ascii := "092"%char.

(** One double-quoted word, as it is spelt in JSON text. *)
Definition quoted (s : string) : string := String dq (s ++ String dq "").

Definition is_ws (c : ascii) : bool :=
  let n := N_of_ascii c in
  ((n =? 32) || (n =? 9) || (n =? 10) || (n =? 13))%N.

Fixpoint skip_ws (s : string) : string :=
  match s with
  | EmptyString => EmptyString
  | String c s' => if is_ws c then skip_ws s' else s
  end.

Fixpoint scan_string (s : string) : option (string * string) :=
  match s with
  | EmptyString => None
  | String c s' =>
      if Ascii.eqb c dq then Some (EmptyString, s')
      else if Ascii.eqb c backslash || (N_of_ascii c <? 32)%N then None
      else match scan_string s' with
           | Some (body, rest) => Some (String c body, rest)
           | None => None
           end
  end.

Definition digit_value (c : ascii) : option Z :=
  let n := N_of_ascii c in
  if ((48 <=? n) && (n <=? 57))%N then Some (Z.of_N n - 48)%Z else None.

Fixpoint scan_digits (s : string) (acc : Z) : Z * string :=
  match s with
  | EmptyString => (acc, s)
  | String c s' =>
      match digit_value c with
      | Some d => scan_digits s' (acc * 10 + d)%Z
      | None => (acc, s)
      end
  end.

Definition ends_number (rest : string) : bool :=
  match rest with
  | String c _ => negb (Ascii.eqb c "." || Ascii.eqb c "e" || Ascii.eqb c "E")
  | EmptyString => true
  end.

(** An integer without leading zeros, not followed by a fraction or
    an exponent. *)
Definition scan_nat (s : string) : option (Z * string) :=
  match s with
  | String c s' =>
      match digit_value c with
      | Some 0%Z => if ends_number s' &&
                       match s' with
                       | String c' _ => match digit_value c' with Some _ => false | None => true end
                       | EmptyString => true
                       end
                    then Some (0%Z, s') else None
      | Some d => let (n, rest) := scan_digits s' d in
                  if ends_number rest then Some (n, rest) else None
      | None => None
      end
  | EmptyString => None
  end.

Definition scan_int (s : string) : option (Z * string) :=
  match s with
  | String "-" s' =>
      match scan_nat s' with
      | Some (n, rest) => Some ((- n)%Z, rest)
      | None => None
      end
  | _ => scan_nat s
  end.

Definition expect (word rest : string) (v : json) : option (json * string) :=
  if String.prefix word rest
  then Some (v, String.substring (String.length word) (String.length rest - String.length word) rest)
  else None.

Fixpoint parse_value (fuel : nat) (s : string) : option (json * string) :=
  match fuel with
  | O => None
  | S fuel' =>
      match skip_ws s with
      | String "{" rest =>
          match skip_ws rest with
          | String "}" rest' => Some (JDict [], rest')
          | _ =>
              match parse_members fuel' rest with
              | Some (items, rest') => Some (JDict items, rest')
              | None => None
              end
          end
      | String "[" rest =>
          match skip_ws rest with
          | String "]" rest' => Some (JList [], rest')
          | _ =>
              match parse_elements fuel' rest with
              | Some (l, rest') => Some (JList l, rest')
              | None => None
              end
          end
      | String "t" _ as w => expect "true" w (JBool true)
      | String "f" _ as w => expect "false" w (JBool false)
      | String "n" _ as w => expect "null" w JNull
      | String c rest as w =>
          if Ascii.eqb c dq then
            match scan_string rest with
            | Some (body, rest') => Some (JStr body, rest')
            | None => None
            end
          else
            match scan_int w with
            | Some (n, rest') => Some (JInt n, rest')
            | None => None
            end
      | EmptyString => None
      end
  end
with parse_elements (fuel : nat) (s : string) : option (list json * string) :=
  match fuel with
  | O => None
  | S fuel' =>
      match parse_value fuel' s with
      | Some (v, rest) =>
          match skip_ws rest with
          | String "," rest' =>
              match parse_elements fuel' rest' with
              | Some (l, rest'') => Some (v :: l, rest'')
              | None => None
              end
          | String "]" rest' => Some ([v], rest')
          | _ => None
          end
      | None => None
      end
  end
with parse_members (fuel : nat) (s : string) : option (list (string * json) * string) :=
  match fuel with
  | O => None
  | S fuel' =>
      match skip_ws s with
      | String c rest =>
          if Ascii.eqb c dq then
            match scan_string rest with
            | Some (key, rest1) =>
                match skip_ws rest1 with
                | String ":" rest2 =>
                    match parse_value fuel' rest2 with
                    | Some (v, rest3) =>
                        match skip_ws rest3 with
                        | String "," rest4 =>
                            match parse_members fuel' rest4 with
                            | Some (items, rest5) => Some ((key, v) :: items, rest5)
                            | None => None
                            end
                        | String "}" rest4 => Some ([(key, v)], rest4)
                        | _ => None
                        end
                    | None => None
                    end
                | _ => None
                end
            | None => None
            end
          else None
      | EmptyString => None
      end
  end.

Definition loads (s : string) : option json :=
  match parse_value (2 * String.length s + 2) s with
  | Some (v, rest) =>
      match skip_ws rest with
      | EmptyString => Some v
      | _ => None
      end
  | None => None
  end.

(** [str()] of the scalar values; the rendering of lists, dicts and
    floats is not needed by the examples and is left empty. *)
Definition str_scalar (j : json) : string :=
  match j with
  | JNull => "None"
  | JBool true => "True"
  | JBool false => "False"
  | JInt z => Py.str_of_int z
  | JStr s => s
  | _ => ""
  end.

End JsonText.

(* ================================================================= *)
(** ** Which files the loops reach *)

Module Tree.

Import Os.

(** Every file of a tree, once each, by the names that lead to it. *)
Fixpoint files_of (e : entry) : list (list string) :=
  match e with
  | File n => [[n]]
  | Dir n children => map (cons n) (flat_map files_of children)
  end.

Definition files (root : list entry) : list (list string) :=
  flat_map files_of root.

(** Names as [os.scandir] gives them: not empty, not [.] or [..], and
    without a separator. *)
Definition wf_name (n : string) : bool :=
  negb (String.eqb n "") && negb (String.eqb n ".") && negb (String.eqb n "..")
  && negb (Py.char_in Py.sep n).

Fixpoint wf_entry (e : entry) : bool :=
  match e with
  | File n => wf_name n
  | Dir n children => wf_name n && forallb wf_entry children
  end.

Definition wf (root : list entry) : bool := forallb wf_entry root.

(** The directory part of a file's path has a [.git] component. *)
Definition under_git (comps : list string) : bool :=
  Py.mem ".git" (removelast comps).

(** The pairs [(dirpath, fname)] for which the loop body runs: the test
    on [dirpath] skips a whole directory listing. *)
Definition candidates (root : list entry) : list (string * string) :=
  flat_map (fun '(dirpath, _, filenames) =>
              if Py.mem ".git" (Py.split dirpath) then []
              else map (pair dirpath) filenames)
           (os_walk "." root).

Definition fp_of (c : string * string) : string := Py.path_join (fst c) (snd c).
Definition rel_of (c : string * string) : string := Py.relpath (fp_of c).

End Tree.

(* ================================================================= *)
(** ** Reading the log *)

Module Log.

Import Os Json.

Definition ok_line (e : event) : bool :=
  match e with
  | EvPrint false l => Py.startswith l "[OK]"
  | _ => false
  end.

Definition fail_line (e : event) : bool :=
  match e with
  | EvPrint false l => Py.startswith l "[FAIL]" || Py.startswith l "[ERROR] read"
  | _ => false
  end.

(** Number of files reported stored, and reported failed. *)
Definition oks (l : list event) : Z := Z.of_nat (List.length (filter ok_line l)).
Definition fails (l : list event) : Z := Z.of_nat (List.length (filter fail_line l)).

(** A lookup of [path]: [gh api /repos/REPO/contents/path]. *)
Definition is_lookup (path : string) (e : event) : bool :=
  match e with
  | EvRun cmd _ _ => if list_eq_dec string_dec cmd (Curl.gh_get_cmd path) then true else false
  | _ => false
  end.

(** A write request: the [curl -X PUT] of one script, the
    [gh api --method PUT] of the other. *)
Definition is_write (e : event) : bool :=
  match e with
  | EvRun ("curl" :: _) _ _ => true
  | EvRun ("gh" :: "api" :: "--method" :: _) _ _ => true
  | _ => false
  end.

(** The command line of a call. *)
Definition command (e : event) : list string :=
  match e with
  | EvRun cmd _ _ => cmd
  | _ => []
  end.

(** The payload of a [json.dump]. *)
Definition dumped (e : event) : list json :=
  match e with
  | EvDump _ payload => [payload]
  | _ => []
  end.

Definition is_open (e : event) : bool :=
  match e with
  | EvOpen _ _ => true
  | _ => false
  end.

(** The key [sha] in a payload, the field [sha=] on a command line. *)
Definition has_sha_key (payload : json) : bool :=
  match payload with
  | JDict items => match lookup "sha" items with Some _ => true | None => false end
  | _ => false
  end.

Definition has_sha_field (cmd : list string) : bool :=
  existsb (fun a => Py.startswith a "sha=") cmd.

End Log.

(* ================================================================= *)
(** ** Progress of a loop *)

Module Progress.

Import Os Json Run.

Section Loops.

Context {E : Env}.




End Loops.

End Progress.

(* ================================================================= *)
(** ** The loop of each script *)

Module CurlLoop.

Import Os Json Run.

(** The pairs [(dirpath, fname)] that pass the four tests on [rel]. *)
Definition eligible (root : list entry) : list (string * string) :=
  filter (fun c => negb (Curl.skipped (Tree.rel_of c))) (Tree.candidates root).

(** What [gh_get] hands back for each way its call can go. *)
Definition reply (r : run_result) : CompletedProcess :=
  match r with
  | Completed cp => cp
  | _ => mkCompleted 2 "" "timeout"
  end.


Section Loop.

Context {E : Env}.

Definition round_of (TOKEN : string) (c : string * string) : M E unit :=
  Curl.sync TOKEN (Tree.fp_of c) (Tree.rel_of c).

Definition summary_line (s e : Z) : string :=
  Py.print_line ["Done. success="; Py.str_of_int s; "errors="; Py.str_of_int e].

(** The state in which the loop starts once the token is there. *)
Definition granted (st : state E) (cp : CompletedProcess) : state E :=
  mkState (snd (spawn E Curl.token_cmd (world st)))
          (out st ++ [EvRun Curl.token_cmd (Some 10%Z) (Completed cp)])
          0%Z 0%Z.

End Loop.

End CurlLoop.

Module GhLoop.

Import Os Json Run.

(** The pairs [(dirpath, fname)] that pass the test against the
    script's own path. *)
Definition eligible (abspath : string) (root : list entry) : list (string * string) :=
  filter (fun c => negb (String.eqb (Tree.fp_of c) abspath)) (Tree.candidates root).


Section Loop.

Context {E : Env}.

Definition round_of (c : string * string) : M E unit :=
  Gh.sync (Tree.fp_of c) (Tree.rel_of c).

Definition summary_line (s e : Z) : string :=
  Py.print_line ["Done. success=" ++ Py.str_of_int s ++ " errors=" ++ Py.str_of_int e].

(** The state in which the loop starts. *)
Definition reset (st : state E) : state E := mkState (world st) (out st) 0%Z 0%Z.

End Loop.

End GhLoop.

(* ================================================================= *)
(** ** Worked examples

    A root with [a.txt] (new) and [b.bin] (stored remotely under the
    token [T1]), and worlds that answer the commands of the scripts. *)

Module Demo.

Import Os Json Run.

Definition found : string :=
  "{" ++ JsonText.quoted "sha" ++ ": " ++ JsonText.quoted "T1" ++ "}".

Definition stored : string :=
  "{" ++ JsonText.quoted "content" ++ ": {" ++ JsonText.quoted "sha" ++ ": "
      ++ JsonText.quoted "T2" ++ "}}".

Definition not_found : CompletedProcess :=
  mkCompleted 1 "" "gh: Not Found (HTTP 404)".

Definition token_reply : CompletedProcess := mkCompleted 0 "gho_example " "".

(** The remote store answers a lookup with [lookup path] and a write
    with [put]. *)
Definition answer (lookup : string -> behaviour) (put : behaviour) (cmd : list string) :
  behaviour :=
  match cmd with
  | ["gh"; "auth"; "token"] => Finishes 1 token_reply
  | ["gh"; "api"; path] => lookup path
  | "curl" :: _ => put
  | "gh" :: "api" :: "--method" :: _ => put
  | _ => Finishes 0 (mkCompleted 127 "" "command not found")
  end.

Definition make (lookup : string -> behaviour) (put : behaviour)
           (reader : string -> read_result) : Env :=
  mkEnv unit
        (fun cmd w => (answer lookup put cmd, w))
        (fun fp w => (reader fp, w))
        (fun _ _ w => w)
        JsonText.loads
        JsonText.str_scalar
        "/home/user/site/upload_via_gh.py".

Definition lookup_b (path : string) : behaviour :=
  if Py.endswith path "b.bin" then Finishes 1 (mkCompleted 0 found "")
  else Finishes 1 not_found.

Definition hello : list byte := [x68; x69].

(** Everything works. *)
Definition env : Env :=
  make lookup_b (Finishes 2 (mkCompleted 0 stored "")) (fun _ => ReadOk hello).


(** Lookups never end. *)
Definition env_stuck : Env :=
  make (fun _ => Never) (Finishes 2 (mkCompleted 0 stored "")) (fun _ => ReadOk hello).

(** Lookups never end and writes are refused. *)
Definition env_down : Env :=
  make (fun _ => Never) (Finishes 2 (mkCompleted 1 "" "HTTP 409")) (fun _ => ReadOk hello).

(** Every lookup is answered with an object whose [sha] is empty. *)
Definition blank : string :=
  "{" ++ JsonText.quoted "sha" ++ ": " ++ JsonText.quoted "" ++ "}".

Definition env_blank : Env :=
  make (fun _ => Finishes 1 (mkCompleted 0 blank ""))
       (Finishes 2 (mkCompleted 0 stored "")) (fun _ => ReadOk hello).




(** Nobody is logged in: every command ends with status 1. *)
Definition env_noauth : Env :=
  mkEnv unit
        (fun _ w => (Finishes 1 (mkCompleted 1 "" "not logged in"), w))
        (fun _ w => (ReadOk hello, w))
        (fun _ _ w => w)
        JsonText.loads
        JsonText.str_scalar
        "/home/user/site/upload_via_gh.py".

Definition root : list entry := [File "a.txt"; File "b.bin"].

End Demo.

(* ================================================================= *)
(** ** Counts and exit status *)

Module TallySpec.

Import Os Json Run.


End TallySpec.

(* ================================================================= *)
(** ** The two counters *)

Module CounterSpec.

Import Os Json Run.



End CounterSpec.

(* ================================================================= *)
(** ** Lookup before write *)

Module OrderSpec.

Import Os Json Run.


Definition no_write (seg : list event) : Prop :=
  forall e, In e seg -> Log.is_write e = false.


End OrderSpec.

(* ================================================================= *)
(** ** The concurrency token in the write request *)

Module TokenSpec.

Import Os Json Run.

(** The lookup ended with status 0 and a JSON object whose [sha] is the
    truthy value [v]. *)
Definition token_found (E : Env) (r : run_result) (v : json) : Prop :=
  exists cp items,
    r = Completed cp /\ returncode cp = 0%Z /\
    json_loads E (stdout cp) = Some (JDict items) /\
    lookup "sha" items = Some v /\ truthy v = true.

(** The lookup said "not found" or failed in transport (a status other
    than 0), or it timed out. *)
Definition lookup_failed (r : run_result) : Prop :=
  r = TimeoutExpired \/ exists cp, r = Completed cp /\ returncode cp <> 0%Z.

(** The value under [sha] in a payload, if the key is there. *)
Definition carried (payload : json) : option json :=
  match payload with
  | JDict items => lookup "sha" items
  | _ => None
  end.

Definition timeout_note (api : string) (r : run_result) : list event :=
  match r with
  | TimeoutExpired => [EvPrint false (Py.print_line ["[ERROR] gh api GET timeout for " ++ api])]
  | _ => []
  end.

(** The log of one round of the curl script on a readable file. *)
Definition curl_round (TOKEN fp rel : string) (data : list byte) (r : run_result)
           (payload : json) (rq : run_result) (line : string) : list event :=
  (EvRun (Curl.gh_get_cmd (Py.quote "/" rel)) (Some 60%Z) r
     :: timeout_note (Py.quote "/" rel) r
     ++ [EvOpen fp (ReadOk data);
         EvDump Curl.tmp payload;
         EvRun (Curl.curl_cmd TOKEN rel) (Some 120%Z) rq;
         EvPrint false line])%list.

(** The log of one round of the gh script on a readable file whose
    lookup ends. *)
Definition gh_round (fp rel : string) (data : list byte) (cp : CompletedProcess)
           (cmd : list string) (rq : run_result) (tail : list event) : list event :=
  (EvOpen fp (ReadOk data)
     :: EvRun (Gh.gh_get_cmd (Py.quote "/" rel)) None (Completed cp)
     :: EvRun cmd None rq
     :: tail)%list.

(** In its round the curl script writes a payload that carries under
    [sha] exactly the token the lookup found, and none when the lookup
    failed. *)
Definition curl_carries (E : Env) (TOKEN fp rel : string) (st : state E)
           (data : list byte) : Prop :=
  let r := wait (Some 60%Z) (fst (spawn E (Curl.gh_get_cmd (Py.quote "/" rel)) (world st))) in
  exists payload rq line,
    out (state_of (Curl.sync TOKEN fp rel st))
    = (out st ++ curl_round TOKEN fp rel data r payload rq line)%list /\
    (forall v, carried payload = Some v <-> token_found E r v) /\
    (lookup_failed r -> carried payload = None).

(** In its round the gh script issues a PUT whose command line has a
    [sha=] field exactly when the lookup found a token, and then that
    token's. *)
Definition gh_carries (E : Env) (fp rel : string) (st : state E)
           (data : list byte) (cp : CompletedProcess) : Prop :=
  exists sha rq tail,
    let cmd := Gh.gh_put_cmd (E := E) (Py.quote "/" rel) ("chore: add " ++ rel ++ " via API")
                             (Base64.b64encode data) sha in
    OrderSpec.no_write tail /\
    out (state_of (Gh.sync fp rel st))
    = (out st ++ gh_round fp rel data cp cmd rq tail)%list /\
    (Log.has_sha_field cmd = true <-> exists v, token_found E (Completed cp) v) /\
    (forall v, token_found E (Completed cp) v -> In ("sha=" ++ str E v) cmd) /\
    (returncode cp <> 0%Z -> Log.has_sha_field cmd = false).

(** The create-style requests: no [sha] anywhere. *)
Definition create_payload (rel : string) (data : list byte) : json :=
  JDict [("message", JStr ("chore: add " ++ rel ++ " via API"));
         ("content", JStr (Base64.b64encode data))].

Definition create_cmd (rel : string) (data : list byte) : list string :=
  ["gh"; "api"; "--method"; "PUT"; "/repos/" ++ Gh.REPO ++ "/contents/" ++ Py.quote "/" rel;
   "-f"; "message=" ++ "chore: add " ++ rel ++ " via API";
   "-f"; "content=" ++ Base64.b64encode data].

(** In its round the curl script puts [sha] in the payload exactly when
    the extracted value is truthy; with a falsy one the payload is the
    create-style one. *)
Definition curl_truthy (E : Env) (TOKEN fp rel : string) (st : state E)
           (data : list byte) : Prop :=
  let r := wait (Some 60%Z) (fst (spawn E (Curl.gh_get_cmd (Py.quote "/" rel)) (world st))) in
  let sha := Curl.sha_of (E := E) (CurlLoop.reply r) in
  exists payload rq line,
    out (state_of (Curl.sync TOKEN fp rel st))
    = (out st ++ curl_round TOKEN fp rel data r payload rq line)%list /\
    Log.has_sha_key payload = truthy sha /\
    (truthy sha = false -> payload = create_payload rel data).

Definition gh_truthy (E : Env) (fp rel : string) (st : state E)
           (data : list byte) (cp : CompletedProcess) : Prop :=
  let sha := Gh.sha_of (E := E) cp in
  exists cmd rq tail,
    OrderSpec.no_write tail /\
    out (state_of (Gh.sync fp rel st))
    = (out st ++ gh_round fp rel data cp cmd rq tail)%list /\
    Log.has_sha_field cmd = truthy sha /\
    (truthy sha = false -> cmd = create_cmd rel data).

(** A lookup answer with status 0 whose object has an empty or null
    [sha], or none: the extracted value is falsy in both scripts. *)
Definition falsy_answer (E : Env) (cp : CompletedProcess) : Prop :=
  returncode cp = 0%Z /\
  exists items,
    json_loads E (stdout cp) = Some (JDict items) /\
    (lookup "sha" items = Some (JStr "") \/ lookup "sha" items = Some JNull
     \/ lookup "sha" items = None).

End TokenSpec.

(* ================================================================= *)
(** ** Success or failure of one write *)

Module VerdictSpec.

Import Os Json Run.

(** The answer the curl script takes for success: [curl] ended in time
    with status 0 and its output decodes to a value [resp] for which
    ['content' in resp] holds. *)
Definition stored (E : Env) (rq : run_result) : Prop :=
  exists q resp,
    rq = Completed q /\ returncode q = 0%Z /\
    json_loads E (stdout q) = Some resp /\ py_in "content" resp = Some true.

(** The text the curl script prints after [[FAIL] rel] for every other
    answer. *)
Definition failure_text (E : Env) (rq : run_result) : string :=
  match rq with
  | Completed q =>
      if (returncode q =? 0)%Z then
        match json_loads E (stdout q) with
        | Some resp =>
            match py_in "content" resp with
            | Some false => Py.strip (stdout q)
            | _ => "invalid response"
            end
        | None => "invalid response"
        end
      else Py.strip (stderr q)
  | _ => "curl timeout"
  end.



End VerdictSpec.

(* ================================================================= *)
(** ** The shape of a whole run *)

Module Phases.

Import Os Json Run.

(** What a run of the curl script logs before its loop: the call of the
    helper, and a complaint on standard error if no token came. *)
Definition token_phase (pre : list event) : Prop :=
  exists r, pre = [EvRun Curl.token_cmd (Some 10%Z) r] \/
            exists line, pre = [EvRun Curl.token_cmd (Some 10%Z) r; EvPrint true line].

(** What either script logs after its loop: the summary line, if the
    loop came to its end. *)
Definition summary_phase (post : list event) : Prop :=
  post = [] \/ exists line, post = [EvPrint false line].

End Phases.

(* ================================================================= *)
(** ** The authentication helper *)

Module Helper.

Import Os Json Run.

(** A call of the helper: [gh auth token]. *)
Definition is_token (e : event) : bool :=
  match e with
  | EvRun ["gh"; "auth"; "token"] _ _ => true
  | _ => false
  end.

Definition quiet (e : event) : bool := negb (is_token e).

(** The helper is called first, and never again. *)
Definition helper_once {E : Env} (st : state E) (r : result E unit) : Prop :=
  exists t rest,
    out (state_of r) = (out st ++ EvRun Curl.token_cmd (Some 10%Z) t :: rest)%list /\
    forallb quiet rest = true.

(** The run stops with status 2 after the helper's call and one line on
    standard error; nothing else was done. *)
Definition aborted {E : Env} (st : state E) (r : result E unit) : Prop :=
  exists t line st',
    r = Exit 2 st' /\
    out st' = (out st ++ [EvRun Curl.token_cmd (Some 10%Z) t; EvPrint true line])%list /\
    success st' = success st /\ errors st' = errors st.

(** The helper is never called. *)
Definition helper_never {E : Env} (st : state E) (r : result E unit) : Prop :=
  exists added,
    out (state_of r) = (out st ++ added)%list /\ forallb quiet added = true.

End Helper.

(* ================================================================= *)
(** ** Timeouts *)

Module Bounds.

Import Os Json Run.

(** The timeouts of the curl script: 120 seconds for a write, 10 for the
    helper, 60 for a lookup; no call without one. *)
Definition curl_bounded (e : event) : bool :=
  match e with
  | EvRun _ (Some t) _ =>
      if Log.is_write e then (t =? 120)%Z
      else if Helper.is_token e then (t =? 10)%Z
      else (t =? 60)%Z
  | EvRun _ None _ => false
  | _ => true
  end.




End Bounds.

(* ================================================================= *)
(** ** Paths made of well-formed names *)

Module Paths.

Import Os.

Definition no_sep (n : string) : Prop := Py.char_in Py.sep n = false.

Definition good (n : string) : Prop := Tree.wf_name n = true.

(** The directory string [os.walk('.')] builds for the names [ds]. *)
Definition dir_string (ds : list string) : string := Py.join ("." :: ds).

End Paths.

(* ================================================================= *)
(** ** The walk against the tree *)

Module Located.

Import Os Paths.

(** Induction on a tree, with the property known of every child. *)
Fixpoint entry_induction (P : entry -> Prop)
         (HF : forall n, P (File n))
         (HD : forall n children, Forall P children -> P (Dir n children))
         (e : entry) : P e :=
  match e with
  | File n => HF n
  | Dir n children =>
      HD n children
         ((fix all (l : list entry) : Forall P l :=
             match l with
             | [] => Forall_nil P
             | c :: l' => Forall_cons c (entry_induction P HF HD c) (all l')
             end) children)
  end.

(** The files of a tree with the names of the directories above them. *)
Fixpoint located (ds : list string) (e : entry) : list (list string * string) :=
  match e with
  | File n => [(ds, n)]
  | Dir n children => flat_map (located (ds ++ [n])) children
  end.

Definition below (ds : list string) (e : entry) : list (list string * string) :=
  match e with
  | File _ => []
  | Dir _ children => flat_map (located ds) children
  end.

Definition wf_children (e : entry) : Prop :=
  match e with
  | File _ => True
  | Dir _ children => forallb Tree.wf_entry children = true
  end.

Definition pairs_of (t : string * list string * list string) : list (string * string) :=
  map (pair (fst (fst t))) (snd t).

Definition all_pairs (root : list entry) : list (string * string) :=
  flat_map pairs_of (os_walk "." root).

(** A located file as [os.walk] presents it. *)
Definition as_walked (p : list string * string) : string * string :=
  (dir_string (fst p), snd p).

Definition path_of (p : list string * string) : list string := (fst p ++ [snd p])%list.

End Located.

(* ================================================================= *)
(** ** Every remaining file is synced once *)

Module Kept.

Import Os Json Run Paths.


(** The path the loops build for the file with the names [cs]. *)
Definition shown (cs : list string) : string := "./" ++ Py.join cs.


(** What [upload_via_gh.py] keeps: files whose directory part has no
    [.git] component and whose path is not the script's own. *)
Definition gh_keeps (abspath : string) (cs : list string) : bool :=
  negb (Tree.under_git cs) && negb (String.eqb (shown cs) abspath).



End Kept.

(* ================================================================= *)
(** ** The address of a remote file *)

Module Address.

(** The API path of a lookup [gh api PATH]: its third word. *)
Definition lookup_path (cmd : list string) : string := nth 2 cmd "".

Definition host : string := "https://api.github.com".

End Address.

(* ================================================================= *)
(** ** Characters of a text *)

Module Text.





End Text.

(* ================================================================= *)
(** ** The log of one round, event by event *)

Module Trace.

Import Os Json Run.

(** The answer to a write that the curl script takes for success. *)
Definition is_stored (E : Env) (rq : run_result) : bool :=
  match rq with
  | Completed q =>
      if (returncode q =? 0)%Z then
        match json_loads E (stdout q) with
        | Some resp =>
            match py_in "content" resp with
            | Some true => true
            | _ => false
            end
        | None => false
        end
      else false
  | _ => false
  end.

(** The status line of a curl round after its write. *)
Definition curl_line (E : Env) (rel : string) (rq : run_result) : string :=
  if is_stored E rq then Py.print_line ["[OK]"; rel]
  else Py.print_line ["[FAIL]"; rel; VerdictSpec.failure_text E rq].

(** A round of the curl script: the lookup [r], a note if it timed out,
    the read [rd] and, if the file could be read, the payload, the write
    [rq] and its status line. *)
Definition curl_trace (E : Env) (TOKEN fp rel : string)
           (r : run_result) (rd : read_result) (rq : run_result) : list event :=
  (EvRun (Curl.gh_get_cmd (Py.quote "/" rel)) (Some 60%Z) r
     :: TokenSpec.timeout_note (Py.quote "/" rel) r
     ++ EvOpen fp rd
     :: match rd with
        | ReadError e => [EvPrint false (Py.print_line ["[ERROR] read"; rel; e])]
        | ReadOk data =>
            [EvDump Curl.tmp
                    (Curl.payload_of rel (Base64.b64encode data)
                                     (Curl.sha_of (E := E) (CurlLoop.reply r)));
             EvRun (Curl.curl_cmd TOKEN rel) (Some 120%Z) rq;
             EvPrint false (curl_line E rel rq)]
        end)%list.

(** The status line of a gh round after its write. *)
Definition gh_line (rel : string) (q : CompletedProcess) : string :=
  if (returncode q =? 0)%Z then "[OK] " ++ rel
  else "[FAIL] " ++ rel ++ " -> " ++ Py.strip (stderr q).

(** A round of the gh script: the read [rd] and, if the file could be
    read, the lookup [r], the write [rq] once the lookup has ended, and
    the status line once the write has ended. *)
Definition gh_trace (E : Env) (fp rel : string)
           (rd : read_result) (r rq : run_result) : list event :=
  EvOpen fp rd
    :: match rd with
       | ReadError e => [EvPrint false ("[ERROR] read " ++ rel ++ ": " ++ e)]
       | ReadOk data =>
           EvRun (Gh.gh_get_cmd (Py.quote "/" rel)) None r
             :: match r with
                | Completed p =>
                    EvRun (Gh.gh_put_cmd (E := E) (Py.quote "/" rel)
                                         ("chore: add " ++ rel ++ " via API")
                                         (Base64.b64encode data) (Gh.sha_of (E := E) p))
                          None rq
                      :: match rq with
                         | Completed q => [EvPrint false (gh_line rel q)]
                         | _ => []
                         end
                | _ => []
                end
       end.

(** The piece of log a script adds for the pair [c], whatever the world
    answers: the children are waited for 60 and 120 seconds by the curl
    script, without limit by the gh script. *)
Definition curl_visit (E : Env) (TOKEN : string) (c : string * string)
           (seg : list event) : Prop :=
  exists b1 rd b2,
    seg = curl_trace E TOKEN (Tree.fp_of c) (Tree.rel_of c)
                     (wait (Some 60%Z) b1) rd (wait (Some 120%Z) b2).

Definition gh_visit (E : Env) (c : string * string) (seg : list event) : Prop :=
  exists rd b1 b2,
    seg = gh_trace E (Tree.fp_of c) (Tree.rel_of c) rd (wait None b1) (wait None b2).

End Trace.

(* ================================================================= *)
(** ** The write requests of a run *)

Module WriteSpec.

Import Os Json Run.

(** The PUT of the curl script for the pair [c], with the token [TOKEN]
    in its header and a timeout of 120 seconds. *)
Definition curl_write (TOKEN : string) (c : string * string) (e : event) : Prop :=
  exists b,
    e = EvRun (Curl.curl_cmd TOKEN (Tree.rel_of c)) (Some 120%Z) (wait (Some 120%Z) b).

(** The PUT of the gh script for the pair [c]: it carries the encoding
    of bytes that were read from the file of [c] in the piece [seg]. *)
Definition gh_write (E : Env) (c : string * string) (seg : list event) (e : event) : Prop :=
  exists data p b,
    In (EvOpen (Tree.fp_of c) (ReadOk data)) seg /\
    e = EvRun (Gh.gh_put_cmd (E := E) (Py.quote "/" (Tree.rel_of c))
                             ("chore: add " ++ Tree.rel_of c ++ " via API")
                             (Base64.b64encode data) (Gh.sha_of (E := E) p))
              None (wait None b).

(** The helper's answer at the head of a log. *)
Definition token_at_head (added : list event) (cp : CompletedProcess) : Prop :=
  hd_error added = Some (EvRun Curl.token_cmd (Some 10%Z) (Completed cp)) /\
  returncode cp = 0%Z.

End WriteSpec.

(* ================================================================= *)
(** ** More worked examples *)

Module Cases.

Import Os Json Run.

(** [a.txt] cannot be read. *)
Definition locked (fp : string) : read_result :=
  if String.eqb fp "./a.txt" then ReadError "[Errno 13] Permission denied: './a.txt'"
  else ReadOk Demo.hello.

Definition env_locked : Env :=
  Demo.make Demo.lookup_b (Finishes 2 (mkCompleted 0 Demo.stored "")) locked.

(** A root in which the gh script itself lies, next to a file in a
    sub-directory. *)
Definition site : list entry :=
  [File "upload_via_gh.py"; Dir "docs" [File "a b.txt"]].

End Cases.

(* ================================================================= *)
(** * Properties *)

(** Division and remainder by literals are handed to [lia]. *)
Ltac Zify.zify_post_hook ::= Z.to_euclidean_division_equations.

(* ================================================================= *)
(** ** Binary-to-text encoding: facts *)

Module Base64Facts.

Local Open Scope N_scope.

Import Base64.

Lemma char_digit_char (d : N) : d < 64 -> char_digit (digit_char d) = Some d.
Proof.
  intros H.
  assert (Hall : forallb (fun k => match char_digit (digit_char (N.of_nat k)) with
                                   | Some d' => d' =? N.of_nat k
                                   | None => false
                                   end) (seq 0 64) = true) by (vm_compute; reflexivity).
  rewrite forallb_forall in Hall.
  specialize (Hall (N.to_nat d)).
  rewrite N2Nat.id in Hall.
  destruct (char_digit (digit_char d)) as [d'|].
  - f_equal. apply N.eqb_eq. apply Hall. apply in_seq. lia.
  - discriminate Hall. apply in_seq. lia.
Qed.

Lemma digit_char_not_pad (d : N) : d < 64 -> Ascii.eqb (digit_char d) pad = false.
Proof.
  intros H.
  assert (Hall : forallb (fun k => negb (Ascii.eqb (digit_char (N.of_nat k)) pad))
                   (seq 0 64) = true) by (vm_compute; reflexivity).
  rewrite forallb_forall in Hall.
  specialize (Hall (N.to_nat d)).
  rewrite N2Nat.id in Hall.
  apply negb_true_iff, Hall, in_seq. lia.
Qed.

Lemma byte3_pack (a b c : byte) :
  byte3 (Byte.to_N a * 65536 + Byte.to_N b * 256 + Byte.to_N c) = Some [a; b; c].
Proof.
  pose proof (Byte.to_N_bounded a). pose proof (Byte.to_N_bounded b).
  pose proof (Byte.to_N_bounded c).
  unfold byte3.
  replace ((Byte.to_N a * 65536 + Byte.to_N b * 256 + Byte.to_N c) / 65536)
    with (Byte.to_N a) by lia.
  replace (((Byte.to_N a * 65536 + Byte.to_N b * 256 + Byte.to_N c) / 256) mod 256)
    with (Byte.to_N b) by lia.
  replace ((Byte.to_N a * 65536 + Byte.to_N b * 256 + Byte.to_N c) mod 256)
    with (Byte.to_N c) by lia.
  now rewrite !Byte.of_to_N.
Qed.

Lemma decode_full_encode (a b c : byte) :
  let n := Byte.to_N a * 65536 + Byte.to_N b * 256 + Byte.to_N c in
  decode_full (digit_char (n / 262144)) (digit_char ((n / 4096) mod 64))
    (digit_char ((n / 64) mod 64)) (digit_char (n mod 64)) = Some [a; b; c].
Proof.
  intros n.
  pose proof (Byte.to_N_bounded a). pose proof (Byte.to_N_bounded b).
  pose proof (Byte.to_N_bounded c).
  unfold decode_full.
  rewrite !char_digit_char by (subst n; lia).
  replace (n / 262144 * 262144 + (n / 4096) mod 64 * 4096 + (n / 64) mod 64 * 64 + n mod 64)
    with n by (subst n; lia).
  apply byte3_pack.
Qed.

Lemma zero_byte : Byte.to_N x00 = 0.
Proof. reflexivity. Qed.

Lemma decode_two_encode (a b : byte) :
  let n := Byte.to_N a * 65536 + Byte.to_N b * 256 in
  decode_two (digit_char (n / 262144)) (digit_char ((n / 4096) mod 64))
    (digit_char ((n / 64) mod 64)) = Some [a; b].
Proof.
  intros n.
  pose proof (Byte.to_N_bounded a). pose proof (Byte.to_N_bounded b).
  unfold decode_two.
  rewrite !char_digit_char by (subst n; lia).
  replace (((n / 64) mod 64) mod 4 =? 0) with true
    by (symmetry; apply N.eqb_eq; subst n; lia).
  replace (n / 262144 * 262144 + (n / 4096) mod 64 * 4096 + (n / 64) mod 64 * 64)
    with (Byte.to_N a * 65536 + Byte.to_N b * 256 + Byte.to_N x00)
    by (rewrite zero_byte; subst n; lia).
  now rewrite byte3_pack.
Qed.

Lemma decode_one_encode (a : byte) :
  let n := Byte.to_N a * 65536 in
  decode_one (digit_char (n / 262144)) (digit_char ((n / 4096) mod 64)) = Some [a].
Proof.
  intros n.
  pose proof (Byte.to_N_bounded a).
  unfold decode_one.
  rewrite !char_digit_char by (subst n; lia).
  replace (((n / 4096) mod 64) mod 16 =? 0) with true
    by (symmetry; apply N.eqb_eq; subst n; lia).
  replace (n / 262144 * 262144 + (n / 4096) mod 64 * 4096)
    with (Byte.to_N a * 65536 + Byte.to_N x00 * 256 + Byte.to_N x00)
    by (rewrite zero_byte; subst n; lia).
  now rewrite byte3_pack.
Qed.

(** Induction three bytes at a time, the way the encoder recurses. *)
Lemma list_ind3 {A} (P : list A -> Prop) :
  P [] -> (forall a, P [a]) -> (forall a b, P [a; b]) ->
  (forall a b c l, P l -> P (a :: b :: c :: l)) ->
  forall l, P l.
Proof.
  intros H0 H1 H2 H3.
  fix IH 1.
  intros [|a [|b [|c l]]].
  - exact H0.
  - apply H1.
  - apply H2.
  - apply H3, IH.
Qed.

(** C4: decoding the base64 encoding of any byte sequence gives the
    sequence back, whatever the bytes are. *)
Theorem b64_roundtrip (bs : list byte) : b64decode (b64encode bs) = Some bs.
Proof.
  induction bs as [|a|a b|a b c l IH] using list_ind3.
  - reflexivity.
  - cbn [b64encode b64decode]. rewrite Ascii.eqb_refl. apply decode_one_encode.
  - cbn [b64encode b64decode].
    pose proof (Byte.to_N_bounded a). pose proof (Byte.to_N_bounded b).
    rewrite Ascii.eqb_refl, digit_char_not_pad by lia.
    apply decode_two_encode.
  - cbn [b64encode b64decode].
    pose proof (Byte.to_N_bounded a). pose proof (Byte.to_N_bounded b).
    pose proof (Byte.to_N_bounded c).
    rewrite digit_char_not_pad by lia.
    rewrite decode_full_encode, IH. reflexivity.
Qed.

End Base64Facts.

(* ================================================================= *)
(** ** Which files the loops reach: facts *)

Module TreeFacts.

Import Os.

Import Tree.

Lemma candidates_proj (root : list entry) :
  candidates root
  = flat_map (fun t => if Py.mem ".git" (Py.split (fst (fst t))) then []
                       else map (pair (fst (fst t))) (snd t))
             (os_walk "." root).
Proof.
  unfold candidates. apply flat_map_ext. intros [[d ds] fs]. reflexivity.
Qed.

End TreeFacts.

(* ================================================================= *)
(** ** Laws of the loops *)

Module Laws.

Import Os Json Run.

Import Progress.

Section Loops.

Context {E : Env}.

Lemma for_each_app {A} (l1 l2 : list A) (body : A -> M E unit) (st : state E) :
  for_each (l1 ++ l2)%list body st = (for_each l1 body ;;; for_each l2 body) st.
Proof.
  revert st. induction l1 as [|x l1 IH]; intros st; simpl.
  - reflexivity.
  - unfold bind in *. destruct (body x st); try reflexivity.
    apply IH.
Qed.

Lemma for_each_ext {A} (l : list A) (body1 body2 : A -> M E unit) :
  (forall x st, In x l -> body1 x st = body2 x st) ->
  forall st, for_each l body1 st = for_each l body2 st.
Proof.
  induction l as [|x l IH]; intros H st; simpl.
  - reflexivity.
  - unfold bind. rewrite H by (now left).
    destruct (body2 x st); try reflexivity.
    apply IH. intros y st' Hy. apply H. now right.
Qed.

Lemma for_each_map {A B} (f : A -> B) (l : list A) (body : B -> M E unit) (st : state E) :
  for_each (map f l) body st = for_each l (fun x => body (f x)) st.
Proof.
  revert st. induction l as [|x l IH]; intros st; simpl.
  - reflexivity.
  - unfold bind. destruct (body (f x) st); try reflexivity. apply IH.
Qed.

(** Nested loops whose outer body may [continue] run the inner body
    over the concatenated lists. *)
Lemma for_each_flat {A B} (l : list A) (skip : A -> bool) (inner : A -> list B)
      (body : B -> M E unit) (st : state E) :
  for_each l (fun x => if skip x then ret tt else for_each (inner x) body) st
  = for_each (flat_map (fun x => if skip x then [] else inner x) l) body st.
Proof.
  revert st. induction l as [|x l IH]; intros st; simpl.
  - reflexivity.
  - rewrite for_each_app. unfold bind.
    destruct (skip x); simpl.
    + apply IH.
    + destruct (for_each (inner x) body st); try reflexivity. apply IH.
Qed.

(** A body that starts with [if skip: continue] runs on the others. *)
Lemma for_each_filter {A} (l : list A) (skip : A -> bool) (body : A -> M E unit)
      (st : state E) :
  for_each l (fun x => if skip x then ret tt else body x) st
  = for_each (filter (fun x => negb (skip x)) l) body st.
Proof.
  revert st. induction l as [|x l IH]; intros st; simpl.
  - reflexivity.
  - unfold bind. destruct (skip x); simpl.
    + apply IH.
    + unfold bind. destruct (body x st); try reflexivity. apply IH.
Qed.








Lemma for_each_returns {A} (l : list A) (body : A -> M E unit) :
  (forall x st, In x l -> exists st', body x st = Ret tt st') ->
  forall st, exists st', for_each l body st = Ret tt st'.
Proof.
  induction l as [|x l IH]; intros H st; simpl.
  - eexists. reflexivity.
  - unfold bind. destruct (H x st (or_introl eq_refl)) as (st1 & ->).
    apply IH. intros y s Hy. apply H. now right.
Qed.

(** The log of a loop is the log before it followed by one piece per
    round entered, each piece satisfying what its round guarantees. *)
Lemma for_each_pieces {A} (P : A -> list event -> Prop) (l : list A)
      (body : A -> M E unit) :
  (forall x st, In x l ->
     exists seg, out (state_of (body x st)) = (out st ++ seg)%list /\ P x seg) ->
  forall st, exists segs,
    out (state_of (for_each l body st)) = (out st ++ List.concat segs)%list /\
    Forall2 P (firstn (List.length segs) l) segs /\
    (forall st', for_each l body st = Ret tt st' -> List.length segs = List.length l).
Proof.
  induction l as [|x l IH]; intros H st; simpl.
  - exists []. simpl. rewrite app_nil_r. repeat split; auto.
  - unfold bind. destruct (H x st (or_introl eq_refl)) as (seg & Hseg & HP).
    destruct (body x st) as [[] st1|c st1|st1] eqn:Hb; simpl in Hseg.
    + destruct (IH (fun y s Hy => H y s (or_intror Hy)) st1) as (segs & Hout & HF & Hlen).
      exists (seg :: segs). simpl. rewrite Hout, Hseg, app_assoc.
      repeat split; auto.
      intros st' Hr. f_equal. eauto.
    + exists [seg]. simpl. rewrite app_nil_r.
      repeat split; auto. intros st' Hr. discriminate.
    + exists [seg]. simpl. rewrite app_nil_r.
      repeat split; auto. intros st' Hr. discriminate.
Qed.

End Loops.

End Laws.

Ltac unfold_run :=
  unfold Run.bind, Run.subprocess_run, Run.read_file, Run.dump_file, Run.print,
    Run.eprint, Run.ret, Run.get_errors, Run.get_success, Run.set_errors,
    Run.set_success, Run.sys_exit, Run.record, Os.wait in *;
  simpl in *.

(** Case analysis on the innermost scrutinee first, so that every
    equation recorded is about an answer of the world. *)
Ltac destruct_inner x :=
  lazymatch x with
  | context [match ?y with _ => _ end] => destruct_inner y
  | _ => destruct x eqn:?
  end.

Ltac split_cases :=
  repeat match goal with
         | |- context [match ?x with _ => _ end] => destruct_inner x; simpl
         end.


(* ================================================================= *)
(** ** One file at a time *)

Module CurlFacts.

Import Os Json Run.

Import CurlLoop.

Section Facts.

Context {E : Env}.


Lemma sync_returns (TOKEN fp rel : string) (st : state E) :
  exists st', Curl.sync TOKEN fp rel st = Ret tt st'.
Proof.
  unfold Curl.sync, Curl.gh_get, Curl.add_error, Curl.add_success.
  unfold_run. split_cases; eexists; reflexivity.
Qed.

Lemma files_loop_rounds (TOKEN : string) (root : list entry) (st : state E) :
  Curl.files_loop TOKEN root st = for_each (eligible root) (round_of TOKEN) st.
Proof.
  unfold Curl.files_loop, eligible, Curl.ROOT.
  rewrite <- Laws.for_each_filter, TreeFacts.candidates_proj, <- Laws.for_each_flat.
  apply Laws.for_each_ext. intros [[dirpath dirs] files] st' _. simpl.
  destruct (Py.mem ".git" (Py.split dirpath)); [reflexivity|].
  rewrite Laws.for_each_map. reflexivity.
Qed.


Lemma summary_exit (st : state E) :
  Curl.summary st
  = Exit (if (errors st >? 0)%Z then 2%Z else 0%Z)
         (record (EvPrint false (summary_line (success st) (errors st))) st).
Proof.
  unfold Curl.summary. unfold_run. destruct (errors st >? 0)%Z; reflexivity.
Qed.

Lemma main_granted (root : list entry) (st : state E) (cp : CompletedProcess) :
  wait (Some 10%Z) (fst (spawn E Curl.token_cmd (world st))) = Completed cp ->
  returncode cp = 0%Z ->
  Curl.main root st
  = (Curl.files_loop (Py.strip (stdout cp)) root ;;; Curl.summary) (granted st cp).
Proof.
  intros Hw Hrc. unfold Curl.main, Curl.get_token, granted.
  unfold bind at 1. unfold bind at 1. unfold subprocess_run.
  destruct (spawn E Curl.token_cmd (world st)) as [b w]. cbn [fst snd] in *.
  rewrite Hw. cbn beta iota. rewrite Hrc. reflexivity.
Qed.

Lemma main_refused (root : list entry) (st : state E) :
  (forall cp, wait (Some 10%Z) (fst (spawn E Curl.token_cmd (world st))) = Completed cp ->
              returncode cp <> 0%Z) ->
  exists r line,
    Curl.main root st
    = Exit 2 (mkState (snd (spawn E Curl.token_cmd (world st)))
                      (out st ++ [EvRun Curl.token_cmd (Some 10%Z) r; EvPrint true line])
                      (success st) (errors st)).
Proof.
  intros H. unfold Curl.main, Curl.get_token.
  unfold bind at 1. unfold bind at 1. unfold subprocess_run.
  destruct (spawn E Curl.token_cmd (world st)) as [b w]. simpl in *.
  destruct b as [secs cp|]; simpl in *.
  - destruct (secs <=? 10)%Z.
    + specialize (H cp eq_refl). apply Z.eqb_neq in H. rewrite H. simpl.
      unfold_run. rewrite <- app_assoc. simpl. eauto.
    + unfold_run. rewrite <- app_assoc. simpl. eauto.
  - unfold_run. rewrite <- app_assoc. simpl. eauto.
Qed.

End Facts.

End CurlFacts.

Module GhFacts.

Import Os Json Run.

Import GhLoop.

Section Facts.

Context {E : Env}.



Lemma gh_files_loop_rounds (root : list entry) (st : state E) :
  Gh.files_loop root st = for_each (eligible (script_abspath E) root) round_of st.
Proof.
  unfold Gh.files_loop, eligible, Gh.ROOT.
  rewrite <- (Laws.for_each_filter _ (fun c => String.eqb (Tree.fp_of c) (script_abspath E))).
  rewrite TreeFacts.candidates_proj, <- Laws.for_each_flat.
  apply Laws.for_each_ext. intros [[dirpath dirs] files] st' _. simpl.
  destruct (Py.mem ".git" (Py.split dirpath)); [reflexivity|].
  rewrite Laws.for_each_map. reflexivity.
Qed.


Lemma gh_summary_exit (st : state E) :
  Gh.summary st
  = Exit (if (errors st >? 0)%Z then 2%Z else 0%Z)
         (record (EvPrint false (summary_line (success st) (errors st))) st).
Proof.
  unfold Gh.summary. unfold_run. destruct (errors st >? 0)%Z; reflexivity.
Qed.

Lemma main_loop (root : list entry) (st : state E) :
  Gh.main root st = (Gh.files_loop root ;;; Gh.summary) (reset st).
Proof. reflexivity. Qed.

End Facts.

End GhFacts.

(* ================================================================= *)
(** ** Worked examples: facts *)

Module DemoFacts.

Import Os Json Run.

Import Demo.


(** [a.txt] is new and [b.bin] is stored under [T1]: two writes, the
    first without a token and the second with [sha=T1]; both succeed,
    the summary says so and the status is 0. *)
Lemma scenario_create_and_update :
  let r := Gh.main root (start (E := env) tt) in
  exit_code r = Some 0%Z /\
  map (fun e => Log.has_sha_field (Log.command e)) (filter Log.is_write (out (state_of r)))
  = [false; true] /\
  Py.mem "sha=T1" (flat_map Log.command (filter Log.is_write (out (state_of r)))) = true /\
  last (out (state_of r)) (EvPrint true "") = EvPrint false "Done. success=2 errors=0".
Proof.
  cbv zeta. repeat split; vm_compute; reflexivity.
Qed.

(** The lookups time out and the writes are refused: each file still
    gets its create-style write, is counted as failed, and the status
    is 2. *)
Lemma scenario_lookup_timeout :
  let r := Curl.main root (start (E := env_down) tt) in
  exit_code r = Some 2%Z /\
  map Log.has_sha_key (flat_map Log.dumped (out (state_of r))) = [false; false] /\
  List.length (filter Log.is_write (out (state_of r))) = 2 /\
  Log.fails (out (state_of r)) = 2%Z /\
  last (out (state_of r)) (EvPrint true "") = EvPrint false "Done. success= 0 errors= 2".
Proof.
  cbv zeta. repeat split; vm_compute; reflexivity.
Qed.

End DemoFacts.

(* ================================================================= *)
(** ** Counts and exit status: facts *)

Module Tally.

Import Os Json Run.

Import TallySpec.




End Tally.

(* ================================================================= *)
(** ** The two counters: facts *)

Module Counters.

Import Os Json Run.

Import CounterSpec.






End Counters.

(* ================================================================= *)
(** ** Lookup before write: facts *)

Module Order.

Import Os Json Run.

Import OrderSpec.

Lemma is_lookup_self (path : string) (t : option Z) (r : run_result) :
  Log.is_lookup path (EvRun (Curl.gh_get_cmd path) t r) = true.
Proof.
  unfold Log.is_lookup.
  destruct (list_eq_dec string_dec (Curl.gh_get_cmd path) (Curl.gh_get_cmd path));
    [reflexivity|contradiction].
Qed.



Lemma is_lookup_open (path fp : string) (r : read_result) :
  Log.is_lookup path (EvOpen fp r) = false.
Proof. reflexivity. Qed.

Lemma is_write_lookup (path : string) (t : option Z) (r : run_result) :
  Log.is_write (EvRun (Curl.gh_get_cmd path) t r) = false.
Proof. reflexivity. Qed.

Lemma is_write_curl (TOKEN rel : string) (t : option Z) (r : run_result) :
  Log.is_write (EvRun (Curl.curl_cmd TOKEN rel) t r) = true.
Proof. reflexivity. Qed.

Lemma is_write_put {E : Env} (path msg content : string) (sha : json)
      (t : option Z) (r : run_result) :
  Log.is_write (EvRun (Gh.gh_put_cmd (E := E) path msg content sha) t r) = true.
Proof. reflexivity. Qed.

Lemma is_write_open (fp : string) (r : read_result) : Log.is_write (EvOpen fp r) = false.
Proof. reflexivity. Qed.

Lemma is_write_dump (path : string) (j : json) : Log.is_write (EvDump path j) = false.
Proof. reflexivity. Qed.

Lemma is_write_print (b : bool) (line : string) : Log.is_write (EvPrint b line) = false.
Proof. reflexivity. Qed.

Create Rewrite HintDb log.

#[local] Hint Rewrite is_lookup_self is_lookup_open is_write_lookup is_write_curl
  @is_write_put is_write_open is_write_dump is_write_print : log.


Section Pieces.

Context {E : Env}.



End Pieces.


Lemma no_write_nil : no_write [].
Proof. intros e []. Qed.


Lemma no_write_print (b : bool) (line : string) (tail : list event) :
  no_write tail -> no_write (EvPrint b line :: tail).
Proof. intros H e [<-|Hin]; [reflexivity|now apply H]. Qed.



End Order.

(* ================================================================= *)
(** ** The concurrency token in the write request: facts *)

Module Token.

Import Os Json Run.

Import TokenSpec.

Section Facts.

Context {E : Env}.

Lemma carried_payload (rel content : string) (sha : json) :
  carried (Curl.payload_of rel content sha) = if truthy sha then Some sha else None.
Proof. unfold Curl.payload_of. destruct (truthy sha); reflexivity. Qed.

Lemma has_sha_key_payload (rel content : string) (sha : json) :
  Log.has_sha_key (Curl.payload_of rel content sha) = truthy sha.
Proof. unfold Curl.payload_of. destruct (truthy sha); reflexivity. Qed.

Lemma has_sha_field_cmd (path msg content : string) (sha : json) :
  Log.has_sha_field (Gh.gh_put_cmd (E := E) path msg content sha) = truthy sha.
Proof.
  unfold Gh.gh_put_cmd, Log.has_sha_field, Py.startswith.
  destruct (truthy sha); simpl; [destruct (str E sha)|]; reflexivity.
Qed.

Lemma sha_field_in_cmd (path msg content : string) (sha : json) :
  truthy sha = true ->
  In ("sha=" ++ str E sha) (Gh.gh_put_cmd (E := E) path msg content sha).
Proof.
  intros H. unfold Gh.gh_put_cmd. rewrite H. apply in_or_app. right. simpl. auto.
Qed.

(** [sha] is truthy exactly when the lookup found a token, and then it
    is that token. *)
Lemma curl_sha_found (r : run_result) (v : json) :
  (Curl.sha_of (E := E) (CurlLoop.reply r) = v /\ truthy v = true) <-> token_found E r v.
Proof.
  unfold token_found, Curl.sha_of, CurlLoop.reply, py_get. split.
  - intros [Hv Ht]. destruct r as [cp| |]; simpl in Hv; try (subst v; discriminate).
    destruct (returncode cp =? 0)%Z eqn:Hrc; [|subst v; discriminate].
    destruct (json_loads E (stdout cp)) as [obj|] eqn:Hj; [|subst v; discriminate].
    destruct obj; try (subst v; discriminate).
    destruct (lookup "sha" items) as [v'|] eqn:Hl; [|subst v; discriminate].
    subst v'. exists cp, items. apply Z.eqb_eq in Hrc. auto.
  - intros (cp & items & -> & Hrc & Hj & Hl & Ht).
    rewrite Hrc, Hj, Hl. simpl. auto.
Qed.

Lemma gh_sha_found (cp : CompletedProcess) (v : json) :
  (Gh.sha_of (E := E) cp = v /\ truthy v = true) <-> token_found E (Completed cp) v.
Proof.
  unfold token_found, Gh.sha_of, py_in, py_getitem. split.
  - intros [Hv Ht].
    destruct (returncode cp =? 0)%Z eqn:Hrc; [|subst v; discriminate].
    destruct (json_loads E (stdout cp)) as [obj|] eqn:Hj; [|subst v; discriminate].
    destruct obj; try (subst v; discriminate).
    + destruct (Py.contains s "sha"); subst v; discriminate.
    + destruct (existsb _ l); subst v; discriminate.
    + destruct (lookup "sha" items) as [v'|] eqn:Hl; [|subst v; discriminate].
      subst v'. exists cp, items. apply Z.eqb_eq in Hrc. auto.
  - intros (cp' & items & Heq & Hrc & Hj & Hl & Ht). injection Heq as <-.
    rewrite Hrc, Hj, Hl. simpl. auto.
Qed.

Lemma curl_sha_failed (r : run_result) :
  lookup_failed r -> Curl.sha_of (E := E) (CurlLoop.reply r) = JNull.
Proof.
  unfold Curl.sha_of. intros [->|(cp & -> & Hrc)]; simpl.
  - reflexivity.
  - apply Z.eqb_neq in Hrc. rewrite Hrc. reflexivity.
Qed.

Lemma gh_sha_failed (cp : CompletedProcess) :
  returncode cp <> 0%Z -> Gh.sha_of (E := E) cp = JNull.
Proof.
  unfold Gh.sha_of. intros Hrc. apply Z.eqb_neq in Hrc. rewrite Hrc. reflexivity.
Qed.

(** What the curl script does in a round whose file can be read. *)
Lemma curl_round_log (TOKEN fp rel : string) (st : state E) (data : list byte) :
  let call := spawn E (Curl.gh_get_cmd (Py.quote "/" rel)) (world st) in
  let r := wait (Some 60%Z) (fst call) in
  fst (open_rb E fp (snd call)) = ReadOk data ->
  exists rq line,
    out (state_of (Curl.sync TOKEN fp rel st))
    = (out st ++ curl_round TOKEN fp rel data r
         (Curl.payload_of rel (Base64.b64encode data) (Curl.sha_of (E := E) (CurlLoop.reply r)))
         rq line)%list.
Proof.
  intros call r Hread. subst r call. unfold curl_round, timeout_note.
  destruct (spawn E (Curl.gh_get_cmd (Py.quote "/" rel)) (world st)) as [b w1] eqn:Hs.
  cbn [fst snd] in *.
  destruct (open_rb E fp w1) as [rd w2] eqn:Ho. cbn [fst] in Hread. subst rd.
  unfold Curl.sync, Curl.gh_get, Curl.add_error, Curl.add_success.
  unfold_run. rewrite Hs.
  destruct b as [secs cp|]; [destruct (secs <=? 60)%Z|]; simpl; rewrite Ho; simpl;
    split_cases; rewrite <- ?app_assoc; simpl; do 2 eexists; reflexivity.
Qed.

(** What the gh script does in a round whose file can be read and whose
    lookup ends. *)
Lemma gh_round_log (fp rel : string) (st : state E) (data : list byte)
      (secs : Z) (cp : CompletedProcess) :
  fst (open_rb E fp (world st)) = ReadOk data ->
  fst (spawn E (Gh.gh_get_cmd (Py.quote "/" rel)) (snd (open_rb E fp (world st))))
  = Finishes secs cp ->
  exists rq tail,
    OrderSpec.no_write tail /\
    out (state_of (Gh.sync fp rel st))
    = (out st ++ gh_round fp rel data cp
         (Gh.gh_put_cmd (E := E) (Py.quote "/" rel) ("chore: add " ++ rel ++ " via API")
                        (Base64.b64encode data) (Gh.sha_of (E := E) cp))
         rq tail)%list.
Proof.
  unfold gh_round. intros Hread Hlook.
  destruct (open_rb E fp (world st)) as [rd w1] eqn:Ho. cbn [fst snd] in *. subst rd.
  destruct (spawn E (Gh.gh_get_cmd (Py.quote "/" rel)) w1) as [b w2] eqn:Hs.
  cbn [fst] in Hlook. subst b.
  unfold Gh.sync, Gh.gh_get, Gh.gh_put, Gh.add_error, Gh.add_success.
  unfold_run. rewrite Ho. simpl. rewrite Hs. simpl.
  split_cases; rewrite <- ?app_assoc; simpl; do 2 eexists;
    (split; [|reflexivity]);
    auto using Order.no_write_nil, Order.no_write_print.
Qed.

End Facts.

(** C1: for every file that is read and written, the write request
    carries the token if and only if the lookup ended with status 0 and
    returned one; after a lookup that says "not found", fails in
    transport or times out the write is still made, without a token.
    (The gh script sets no timeout: its lookup ends or blocks.) *)
Theorem token_iff_lookup_found :
  (forall (E : Env) (TOKEN fp rel : string) (st : state E) (data : list byte),
      fst (open_rb E fp (snd (spawn E (Curl.gh_get_cmd (Py.quote "/" rel)) (world st))))
      = ReadOk data ->
      curl_carries E TOKEN fp rel st data)
  /\
  (forall (E : Env) (fp rel : string) (st : state E) (data : list byte)
          (secs : Z) (cp : CompletedProcess),
      fst (open_rb E fp (world st)) = ReadOk data ->
      fst (spawn E (Gh.gh_get_cmd (Py.quote "/" rel)) (snd (open_rb E fp (world st))))
      = Finishes secs cp ->
      gh_carries E fp rel st data cp).
Proof.
  split.
  - intros E TOKEN fp rel st data Hread.
    destruct (curl_round_log TOKEN fp rel st data Hread) as (rq & line & Hlog).
    unfold curl_carries. eexists _, rq, line. split; [exact Hlog|].
    rewrite carried_payload. split.
    + intros v. rewrite <- curl_sha_found.
      destruct (truthy (Curl.sha_of _)) eqn:Ht; split.
      * intros [= <-]. auto.
      * intros [<- _]. reflexivity.
      * discriminate.
      * intros [<- Ht']. congruence.
    + intros Hf. rewrite (curl_sha_failed _ Hf). reflexivity.
  - intros E fp rel st data secs cp Hread Hlook.
    destruct (gh_round_log fp rel st data secs cp Hread Hlook) as (rq & tail & Hnw & Hlog).
    exists (Gh.sha_of (E := E) cp), rq, tail. cbn zeta.
    split; [exact Hnw|]. split; [exact Hlog|].
    rewrite has_sha_field_cmd. repeat split.
    + intros Ht. exists (Gh.sha_of (E := E) cp). apply gh_sha_found. auto.
    + intros (v & Hv). apply gh_sha_found in Hv. destruct Hv as [-> Ht]. exact Ht.
    + intros v Hv. apply gh_sha_found in Hv. destruct Hv as [<- Ht].
      now apply sha_field_in_cmd.
    + intros Hrc. rewrite (gh_sha_failed _ Hrc). reflexivity.
Qed.

Lemma token_iff_lookup_found_witness :
  curl_carries Demo.env "gho_example" "./b.bin" "b.bin" (start (E := Demo.env) tt) Demo.hello
  /\ gh_carries Demo.env "./b.bin" "b.bin" (start (E := Demo.env) tt) Demo.hello
                (mkCompleted 0 Demo.found "").
Proof.
  split.
  - apply (proj1 token_iff_lookup_found Demo.env). reflexivity.
  - apply (proj2 token_iff_lookup_found Demo.env "./b.bin" "b.bin" (start (E := Demo.env) tt)
                 Demo.hello 1%Z); reflexivity.
Defined.

(** C9: the write carries the token field exactly when the value
    extracted from the lookup answer is truthy; an answer whose [sha] is
    the empty string or null gives the same create-style request as a
    lookup that found nothing. *)
Theorem token_sent_iff_truthy :
  (forall (E : Env) (TOKEN fp rel : string) (st : state E) (data : list byte),
      fst (open_rb E fp (snd (spawn E (Curl.gh_get_cmd (Py.quote "/" rel)) (world st))))
      = ReadOk data ->
      curl_truthy E TOKEN fp rel st data)
  /\
  (forall (E : Env) (fp rel : string) (st : state E) (data : list byte)
          (secs : Z) (cp : CompletedProcess),
      fst (open_rb E fp (world st)) = ReadOk data ->
      fst (spawn E (Gh.gh_get_cmd (Py.quote "/" rel)) (snd (open_rb E fp (world st))))
      = Finishes secs cp ->
      gh_truthy E fp rel st data cp)
  /\
  (forall (E : Env) (cp : CompletedProcess),
      falsy_answer E cp ->
      truthy (Curl.sha_of (E := E) cp) = false /\ truthy (Gh.sha_of (E := E) cp) = false).
Proof.
  split; [|split].
  - intros E TOKEN fp rel st data Hread.
    destruct (curl_round_log TOKEN fp rel st data Hread) as (rq & line & Hlog).
    unfold curl_truthy. eexists _, rq, line. split; [exact Hlog|].
    rewrite has_sha_key_payload. split; [reflexivity|].
    intros Ht. unfold Curl.payload_of. rewrite Ht. reflexivity.
  - intros E fp rel st data secs cp Hread Hlook.
    destruct (gh_round_log fp rel st data secs cp Hread Hlook) as (rq & tail & Hnw & Hlog).
    unfold gh_truthy. eexists _, rq, tail. split; [exact Hnw|]. split; [exact Hlog|].
    rewrite has_sha_field_cmd. split; [reflexivity|].
    intros Ht. unfold Gh.gh_put_cmd. rewrite Ht. reflexivity.
  - intros E cp (Hrc & items & Hj & Hl).
    unfold Curl.sha_of, Gh.sha_of, py_get, py_in, py_getitem. rewrite Hrc, Hj. simpl.
    destruct Hl as [Hl|[Hl|Hl]]; rewrite Hl; auto.
Qed.

Lemma token_sent_iff_truthy_witness :
  curl_truthy Demo.env_blank "gho_example" "./a.txt" "a.txt"
              (start (E := Demo.env_blank) tt) Demo.hello
  /\ gh_truthy Demo.env_blank "./a.txt" "a.txt" (start (E := Demo.env_blank) tt)
               Demo.hello (mkCompleted 0 Demo.blank "")
  /\ truthy (Curl.sha_of (E := Demo.env_blank) (mkCompleted 0 Demo.blank "")) = false
  /\ truthy (Gh.sha_of (E := Demo.env_blank) (mkCompleted 0 Demo.blank "")) = false.
Proof.
  split; [|split].
  - apply (proj1 token_sent_iff_truthy Demo.env_blank). reflexivity.
  - apply (proj1 (proj2 token_sent_iff_truthy) Demo.env_blank "./a.txt" "a.txt"
                 (start (E := Demo.env_blank) tt) Demo.hello 1%Z); reflexivity.
  - apply (proj2 (proj2 token_sent_iff_truthy) Demo.env_blank).
    split; [reflexivity|]. exists [("sha", JStr "")]. split; [reflexivity|].
    left. reflexivity.
Defined.

End Token.

(* ================================================================= *)
(** ** Success or failure of one write: facts *)

Module Verdict.

Import Os Json Run.

Import VerdictSpec.


Section Facts.

Context {E : Env}.



End Facts.




End Verdict.

(* ================================================================= *)
(** ** The shape of a whole run: facts *)

Module Whole.

Import Os Json Run.

Import Phases.

Section Pieces.

Context {E : Env}.

Lemma curl_main_pieces (P : string * string -> list event -> Prop) :
  (forall TOKEN c (st : state E),
      exists seg, out (state_of (CurlLoop.round_of TOKEN c st)) = (out st ++ seg)%list /\
                  P c seg) ->
  forall (root : list entry) (st : state E),
  exists pre segs post,
    out (state_of (Curl.main root st)) = (out st ++ pre ++ List.concat segs ++ post)%list /\
    token_phase pre /\ summary_phase post /\
    Forall2 P (firstn (List.length segs) (CurlLoop.eligible root)) segs.
Proof.
  intros HP root st.
  assert (Hrefused :
            (forall cp, wait (Some 10%Z) (fst (spawn E Curl.token_cmd (world st))) = Completed cp ->
                        returncode cp <> 0%Z) ->
            exists pre segs post,
              out (state_of (Curl.main root st))
              = (out st ++ pre ++ List.concat segs ++ post)%list /\
              token_phase pre /\ summary_phase post /\
              Forall2 P (firstn (List.length segs) (CurlLoop.eligible root)) segs).
  { intros H. destruct (CurlFacts.main_refused root st H) as (r & line & ->).
    exists [EvRun Curl.token_cmd (Some 10%Z) r; EvPrint true line], [], [].
    simpl. repeat split.
    - exists r. right. exists line. reflexivity.
    - now left.
    - constructor. }
  destruct (wait (Some 10%Z) (fst (spawn E Curl.token_cmd (world st)))) as [cp| |] eqn:Hw;
    try (apply Hrefused; intros cp' Hcp'; congruence).
  destruct (Z.eq_dec (returncode cp) 0) as [Hrc|Hrc];
    [|apply Hrefused; intros cp' Hcp'; congruence].
  clear Hrefused.
  rewrite (CurlFacts.main_granted root st cp Hw Hrc).
  unfold bind. rewrite CurlFacts.files_loop_rounds.
  destruct (Laws.for_each_pieces P (CurlLoop.eligible root)
              (CurlLoop.round_of (Py.strip (stdout cp)))
              (fun c s _ => HP _ c s)
              (CurlLoop.granted st cp)) as (segs & Hout & HF & _).
  exists [EvRun Curl.token_cmd (Some 10%Z) (Completed cp)], segs.
  destruct (for_each (CurlLoop.eligible root) _ (CurlLoop.granted st cp))
    as [[] st2|code st2|st2]; simpl in Hout.
  - rewrite CurlFacts.summary_exit.
    exists [EvPrint false (CurlLoop.summary_line (success st2) (errors st2))].
    simpl. rewrite Hout, <- !app_assoc. repeat split; auto.
    + exists (Completed cp). now left.
    + right. eexists. reflexivity.
  - exists []. simpl. rewrite Hout, <- !app_assoc, app_nil_r. repeat split; auto.
    + exists (Completed cp). now left.
    + now left.
  - exists []. simpl. rewrite Hout, <- !app_assoc, app_nil_r. repeat split; auto.
    + exists (Completed cp). now left.
    + now left.
Qed.

Lemma gh_main_pieces (P : string * string -> list event -> Prop) :
  (forall c (st : state E),
      exists seg, out (state_of (GhLoop.round_of c st)) = (out st ++ seg)%list /\ P c seg) ->
  forall (root : list entry) (st : state E),
  exists segs post,
    out (state_of (Gh.main root st)) = (out st ++ List.concat segs ++ post)%list /\
    summary_phase post /\
    Forall2 P (firstn (List.length segs) (GhLoop.eligible (script_abspath E) root)) segs.
Proof.
  intros HP root st.
  rewrite GhFacts.main_loop. unfold bind. rewrite GhFacts.gh_files_loop_rounds.
  destruct (Laws.for_each_pieces P (GhLoop.eligible (script_abspath E) root)
              GhLoop.round_of (fun c s _ => HP c s) (GhLoop.reset st))
    as (segs & Hout & HF & _).
  exists segs.
  destruct (for_each (GhLoop.eligible (script_abspath E) root) _ (GhLoop.reset st))
    as [[] st2|code st2|st2]; simpl in Hout.
  - rewrite GhFacts.gh_summary_exit.
    exists [EvPrint false (GhLoop.summary_line (success st2) (errors st2))].
    simpl. rewrite Hout, <- !app_assoc. repeat split; auto.
    right. eexists. reflexivity.
  - exists []. simpl. rewrite Hout, app_nil_r. repeat split; auto. now left.
  - exists []. simpl. rewrite Hout, app_nil_r. repeat split; auto. now left.
Qed.

End Pieces.

(** Pieces that all satisfy a test make a log that satisfies it. *)
Lemma concat_forallb {A} (f : event -> bool) (l : list A) (segs : list (list event)) :
  Forall2 (fun _ seg => forallb f seg = true) l segs ->
  forallb f (List.concat segs) = true.
Proof.
  induction 1 as [|x seg l segs Hseg _ IH]; simpl.
  - reflexivity.
  - rewrite forallb_app, Hseg, IH. reflexivity.
Qed.

End Whole.

(* ================================================================= *)
(** ** The authentication helper: facts *)

Module Credential.

Import Os Json Run.

Import Helper.

Lemma quiet_lookup (path : string) (t : option Z) (r : run_result) :
  quiet (EvRun (Curl.gh_get_cmd path) t r) = true.
Proof. reflexivity. Qed.

Lemma quiet_curl (TOKEN rel : string) (t : option Z) (r : run_result) :
  quiet (EvRun (Curl.curl_cmd TOKEN rel) t r) = true.
Proof. reflexivity. Qed.

Lemma quiet_put {E : Env} (path msg content : string) (sha : json)
      (t : option Z) (r : run_result) :
  quiet (EvRun (Gh.gh_put_cmd (E := E) path msg content sha) t r) = true.
Proof. reflexivity. Qed.

Lemma quiet_open (fp : string) (r : read_result) : quiet (EvOpen fp r) = true.
Proof. reflexivity. Qed.

Lemma quiet_dump (path : string) (j : json) : quiet (EvDump path j) = true.
Proof. reflexivity. Qed.

Lemma quiet_print (b : bool) (line : string) : quiet (EvPrint b line) = true.
Proof. reflexivity. Qed.

Create Rewrite HintDb quiet.

#[local] Hint Rewrite quiet_lookup quiet_curl @quiet_put quiet_open quiet_dump
  quiet_print : quiet.

Ltac close_quiet :=
  rewrite <- ?app_assoc; cbn [List.app]; eexists; split; [reflexivity|];
  cbn [forallb]; autorewrite with quiet; reflexivity.

Section Rounds.

Context {E : Env}.

Lemma curl_round_quiet (TOKEN : string) (c : string * string) (st : state E) :
  exists seg,
    out (state_of (CurlLoop.round_of TOKEN c st)) = (out st ++ seg)%list /\
    forallb quiet seg = true.
Proof.
  unfold CurlLoop.round_of, Curl.sync, Curl.gh_get, Curl.add_error, Curl.add_success.
  unfold_run. split_cases; close_quiet.
Qed.

Lemma gh_round_quiet (c : string * string) (st : state E) :
  exists seg,
    out (state_of (GhLoop.round_of c st)) = (out st ++ seg)%list /\
    forallb quiet seg = true.
Proof.
  unfold GhLoop.round_of, Gh.sync, Gh.gh_get, Gh.gh_put, Gh.add_error, Gh.add_success.
  unfold_run. split_cases; change (Gh.gh_get_cmd ?p) with (Curl.gh_get_cmd p); close_quiet.
Qed.

End Rounds.

(** C7, as the code has it: [upload_via_curl.py] calls the helper once,
    before anything else, and if the call times out or ends with a
    status other than 0 it leaves with status 2 without touching a file;
    [upload_via_gh.py] never calls the helper. *)
Theorem helper_once_or_never :
  (forall (E : Env) (root : list entry) (st : state E),
      helper_once st (Curl.main root st))
  /\
  (forall (E : Env) (root : list entry) (st : state E),
      (forall cp, wait (Some 10%Z) (fst (spawn E Curl.token_cmd (world st))) = Completed cp ->
                  returncode cp <> 0%Z) ->
      aborted st (Curl.main root st))
  /\
  (forall (E : Env) (root : list entry) (st : state E),
      helper_never st (Gh.main root st)).
Proof.
  split; [|split].
  - intros E root st.
    destruct (Whole.curl_main_pieces (fun _ seg => forallb quiet seg = true)
                (fun T c s => curl_round_quiet T c s) root st)
      as (pre & segs & post & Hout & (t & Hpre) & Hpost & HF).
    apply Whole.concat_forallb in HF.
    exists t. destruct Hpre as [->|(line & ->)].
    + exists (List.concat segs ++ post)%list. split; [rewrite Hout; reflexivity|].
      rewrite forallb_app, HF. destruct Hpost as [->|(line & ->)]; reflexivity.
    + exists (EvPrint true line :: List.concat segs ++ post)%list.
      split; [rewrite Hout; reflexivity|].
      cbn [forallb]. rewrite forallb_app, HF.
      destruct Hpost as [->|(line' & ->)]; reflexivity.
  - intros E root st H.
    destruct (CurlFacts.main_refused root st H) as (t & line & ->).
    exists t, line. eexists. repeat split.
  - intros E root st.
    destruct (Whole.gh_main_pieces (fun _ seg => forallb quiet seg = true)
                (fun c s => gh_round_quiet c s) root st)
      as (segs & post & Hout & Hpost & HF).
    apply Whole.concat_forallb in HF.
    exists (List.concat segs ++ post)%list. split; [exact Hout|].
    rewrite forallb_app, HF. destruct Hpost as [->|(line & ->)]; reflexivity.
Qed.

Lemma helper_once_or_never_witness :
  aborted (start (E := Demo.env_noauth) tt)
          (Curl.main Demo.root (start (E := Demo.env_noauth) tt)).
Proof.
  apply (proj1 (proj2 helper_once_or_never) Demo.env_noauth Demo.root).
  intros cp Hcp. injection Hcp as <-. discriminate.
Defined.

(** Two runs of the gh script on the two-file root.  Where everything
    works it stores both files and leaves with status 0 without having
    called the helper.  Where nobody is logged in it still opens and
    tries both files, and leaves with status 2 only after the loop. *)
Lemma helper_counterexample :
  (let r := Gh.main Demo.root (start (E := Demo.env) tt) in
   exit_code r = Some 0%Z /\ success (state_of r) = 2%Z /\
   List.length (filter is_token (out (state_of r))) = 0)
  /\
  (let r := Gh.main Demo.root (start (E := Demo.env_noauth) tt) in
   exit_code r = Some 2%Z /\ errors (state_of r) = 2%Z /\
   List.length (filter is_token (out (state_of r))) = 0 /\
   List.length (filter Log.is_open (out (state_of r))) = 2 /\
   List.length (filter Log.is_write (out (state_of r))) = 2).
Proof.
  cbv zeta. repeat split; vm_compute; reflexivity.
Qed.

End Credential.

(* ================================================================= *)
(** ** Timeouts: facts *)

Module Timeouts.

Import Os Json Run.

Import Bounds.

Lemma bounded_lookup (path : string) (r : run_result) :
  curl_bounded (EvRun (Curl.gh_get_cmd path) (Some 60%Z) r) = true.
Proof. reflexivity. Qed.

Lemma bounded_curl (TOKEN rel : string) (r : run_result) :
  curl_bounded (EvRun (Curl.curl_cmd TOKEN rel) (Some 120%Z) r) = true.
Proof. reflexivity. Qed.

Lemma bounded_token (r : run_result) :
  curl_bounded (EvRun Curl.token_cmd (Some 10%Z) r) = true.
Proof. reflexivity. Qed.

Lemma bounded_open (fp : string) (r : read_result) : curl_bounded (EvOpen fp r) = true.
Proof. reflexivity. Qed.

Lemma bounded_dump (path : string) (j : json) : curl_bounded (EvDump path j) = true.
Proof. reflexivity. Qed.

Lemma bounded_print (b : bool) (line : string) : curl_bounded (EvPrint b line) = true.
Proof. reflexivity. Qed.

Create Rewrite HintDb bounded.

#[local] Hint Rewrite bounded_lookup bounded_curl bounded_token bounded_open bounded_dump
  bounded_print : bounded.

Section Rounds.

Context {E : Env}.





End Rounds.




End Timeouts.

(* ================================================================= *)
(** ** Paths made of well-formed names: facts *)

Module PathFacts.

Import Os.

Import Paths.

Lemma good_parts (n : string) :
  good n -> n <> "" /\ n <> "." /\ no_sep n.
Proof.
  unfold good, Tree.wf_name, no_sep. intros H.
  repeat (apply andb_true_iff in H; destruct H as [H ?]).
  repeat match goal with
         | H : negb _ = true |- _ => apply negb_true_iff in H
         end.
  repeat split; try assumption; intros ->; discriminate.
Qed.

Lemma no_sep_cons (c : ascii) (x : string) :
  no_sep (String c x) -> Ascii.eqb c Py.sep = false /\ no_sep x.
Proof.
  unfold no_sep. intros H.
  change (Py.char_in Py.sep (String c x))
    with (Ascii.eqb Py.sep c || Py.char_in Py.sep x) in H.
  apply orb_false_iff in H. destruct H as [Hc Hx].
  rewrite Ascii.eqb_sym in Hc. now split.
Qed.

Lemma split_no_sep (x : string) : no_sep x -> Py.split x = [x].
Proof.
  induction x as [|c x IH]; intros H.
  - reflexivity.
  - apply no_sep_cons in H. destruct H as [Hc Hx].
    cbn [Py.split]. rewrite Hc, (IH Hx). reflexivity.
Qed.

Lemma split_app_sep (x s : string) :
  no_sep x -> Py.split (x ++ String Py.sep s) = x :: Py.split s.
Proof.
  induction x as [|c x IH]; intros H.
  - cbn [append Py.split]. rewrite Ascii.eqb_refl. reflexivity.
  - apply no_sep_cons in H. destruct H as [Hc Hx].
    cbn [append Py.split]. rewrite Hc, (IH Hx). reflexivity.
Qed.

Lemma join_cons (x y : string) (l : list string) :
  Py.join (x :: y :: l) = x ++ String Py.sep (Py.join (y :: l)).
Proof. reflexivity. Qed.

Lemma split_join (cs : list string) :
  cs <> [] -> Forall no_sep cs -> Py.split (Py.join cs) = cs.
Proof.
  induction cs as [|x [|y l] IH]; intros Hne HF.
  - contradiction.
  - simpl. apply split_no_sep. now inversion HF.
  - rewrite join_cons. inversion HF as [|? ? Hx HF']; subst.
    rewrite split_app_sep by assumption. f_equal. apply IH; [discriminate|assumption].
Qed.

Lemma append_assoc (a b c : string) : (a ++ b) ++ c = a ++ (b ++ c).
Proof. induction a as [|x a IH]; simpl; [reflexivity|now rewrite IH]. Qed.

Lemma join_snoc (l : list string) (x : string) :
  l <> [] -> Py.join (l ++ [x]) = Py.join l ++ String Py.sep x.
Proof.
  induction l as [|a [|b l] IH]; intros Hne.
  - contradiction.
  - reflexivity.
  - change ((a :: b :: l) ++ [x])%list with (a :: (b :: l) ++ [x])%list.
    change ((b :: l) ++ [x])%list with (b :: (l ++ [x]))%list.
    rewrite join_cons.
    change (b :: (l ++ [x]))%list with ((b :: l) ++ [x])%list.
    rewrite IH by discriminate. rewrite join_cons.
    rewrite append_assoc. reflexivity.
Qed.

Lemma eqb_sep_long (c : ascii) (t : string) :
  t <> "" -> String.eqb (String c t) "/" = false.
Proof.
  intros Ht. apply String.eqb_neq. intros H. injection H as _ H. contradiction.
Qed.

Lemma endswith_no_sep (x : string) : no_sep x -> Py.endswith x "/" = false.
Proof.
  induction x as [|c x IH]; intros H.
  - reflexivity.
  - apply no_sep_cons in H. destruct H as [Hc Hx].
    cbn [Py.endswith]. rewrite (IH Hx), orb_false_r.
    apply String.eqb_neq. intros Heq. injection Heq as Hc' _. subst c.
    discriminate.
Qed.

Lemma endswith_after_sep (x s : string) :
  s <> "" -> Py.endswith s "/" = false -> Py.endswith (x ++ String Py.sep s) "/" = false.
Proof.
  intros Hs He. induction x as [|c x IH].
  - cbn [append Py.endswith]. rewrite He, orb_false_r. now apply eqb_sep_long.
  - cbn [append Py.endswith]. rewrite IH, orb_false_r. apply eqb_sep_long.
    destruct x; discriminate.
Qed.

Lemma join_nonempty (l : list string) :
  l <> [] -> Forall (fun n => n <> "") l -> Py.join l <> "".
Proof.
  destruct l as [|x [|y l]]; intros Hne HF.
  - contradiction.
  - simpl. now inversion HF.
  - rewrite join_cons. inversion HF as [|? ? Hx _]; subst.
    destruct x; [contradiction|discriminate].
Qed.

Lemma endswith_join (l : list string) :
  l <> [] -> Forall (fun n => n <> "" /\ no_sep n) l -> Py.endswith (Py.join l) "/" = false.
Proof.
  induction l as [|x [|y l] IH]; intros Hne HF.
  - contradiction.
  - simpl. apply endswith_no_sep. inversion HF as [|? ? [_ Hx] _]. assumption.
  - rewrite join_cons. inversion HF as [|? ? Hx HF']; subst.
    apply endswith_after_sep.
    + apply join_nonempty; [discriminate|].
      eapply Forall_impl; [|exact HF']. intros n [Hn _]. exact Hn.
    + apply IH; [discriminate|assumption].
Qed.

Lemma dot_parts : "." <> "" /\ no_sep ".".
Proof. split; [discriminate|reflexivity]. Qed.

Lemma good_all_parts (ds : list string) :
  Forall good ds -> Forall (fun n => n <> "" /\ no_sep n) ("." :: ds).
Proof.
  intros H. constructor; [exact dot_parts|].
  eapply Forall_impl; [|exact H]. intros n Hn.
  destruct (good_parts n Hn) as (H1 & _ & H3). now split.
Qed.

Lemma startswith_sep (n : string) : no_sep n -> Py.startswith n "/" = false.
Proof.
  unfold Py.startswith. destruct n as [|c n]; intros H.
  - reflexivity.
  - apply no_sep_cons in H. destruct H as [Hc _].
    cbn [String.prefix]. destruct (ascii_dec "/" c) as [<-|]; [discriminate|reflexivity].
Qed.

(** [os.path.join] of a walked directory and a listed name. *)
Lemma path_join_dir (ds : list string) (n : string) :
  Forall good ds -> good n ->
  Py.path_join (dir_string ds) n = dir_string (ds ++ [n]).
Proof.
  intros Hds Hn. destruct (good_parts n Hn) as (Hn1 & _ & Hn3).
  unfold Py.path_join, dir_string.
  rewrite (startswith_sep n Hn3).
  rewrite (endswith_join ("." :: ds)) by (try discriminate; now apply good_all_parts).
  replace (String.eqb (Py.join ("." :: ds)) "") with false.
  - simpl orb. cbv iota.
    change ("." :: ds ++ [n])%list with (("." :: ds) ++ [n])%list.
    rewrite join_snoc by discriminate. reflexivity.
  - symmetry. apply String.eqb_neq. apply join_nonempty; [discriminate|].
    eapply Forall_impl; [|exact (good_all_parts ds Hds)]. intros m [Hm _]. exact Hm.
Qed.

Lemma split_dir (ds : list string) :
  Forall good ds -> Py.split (dir_string ds) = "." :: ds.
Proof.
  intros Hds. unfold dir_string. apply split_join; [discriminate|].
  eapply Forall_impl; [|exact (good_all_parts ds Hds)]. intros m [_ Hm]. exact Hm.
Qed.

Lemma mem_git_dir (ds : list string) :
  Forall good ds -> Py.mem ".git" (Py.split (dir_string ds)) = Py.mem ".git" ds.
Proof. intros Hds. rewrite (split_dir ds Hds). reflexivity. Qed.

Lemma filter_good (cs : list string) :
  Forall good cs ->
  filter (fun c => negb (String.eqb c "" || String.eqb c ".")) cs = cs.
Proof.
  induction 1 as [|c cs Hc _ IH]; simpl.
  - reflexivity.
  - destruct (good_parts c Hc) as (H1 & H2 & _).
    apply String.eqb_neq in H1, H2. rewrite H1, H2, IH. reflexivity.
Qed.

(** [os.path.relpath] gives the names below the root back. *)
Lemma relpath_dir (cs : list string) :
  cs <> [] -> Forall good cs -> Py.relpath (dir_string cs) = Py.join cs.
Proof.
  intros Hne Hcs. unfold Py.relpath. rewrite (split_dir cs Hcs).
  cbn [filter]. simpl (negb _). cbv iota. rewrite (filter_good cs Hcs).
  destruct cs; [contradiction|reflexivity].
Qed.

Lemma dir_string_dot (cs : list string) :
  cs <> [] -> dir_string cs = "./" ++ Py.join cs.
Proof. intros Hne. destruct cs; [contradiction|reflexivity]. Qed.

End PathFacts.

(* ================================================================= *)
(** ** The walk against the tree: facts *)

Module Walk.

Import Os Paths PathFacts.

Import Located.

Lemma map_flat_map {A B C} (f : B -> C) (g : A -> list B) (l : list A) :
  map f (flat_map g l) = flat_map (fun x => map f (g x)) l.
Proof.
  induction l as [|x l IH]; simpl; [reflexivity|].
  now rewrite map_app, IH.
Qed.

Lemma filter_flat_map {A B} (f : B -> bool) (g : A -> list B) (l : list A) :
  filter f (flat_map g l) = flat_map (fun x => filter f (g x)) l.
Proof.
  induction l as [|x l IH]; simpl; [reflexivity|].
  now rewrite filter_app, IH.
Qed.

Lemma filter_map_comm {A B} (f : B -> bool) (g : A -> B) (l : list A) :
  filter f (map g l) = map g (filter (fun x => f (g x)) l).
Proof.
  induction l as [|x l IH]; simpl; [reflexivity|].
  destruct (f (g x)); simpl; now rewrite IH.
Qed.



Lemma candidates_filter (root : list entry) :
  Tree.candidates root
  = filter (fun p => negb (Py.mem ".git" (Py.split (fst p)))) (all_pairs root).
Proof.
  rewrite TreeFacts.candidates_proj. unfold all_pairs. rewrite filter_flat_map.
  apply flat_map_ext. intros [[d ds] fs]. unfold pairs_of. simpl.
  rewrite filter_map_comm. simpl.
  destruct (Py.mem ".git" (Py.split d)); simpl.
  - induction fs; simpl; auto.
  - f_equal. induction fs; simpl; [reflexivity|now f_equal].
Qed.

Lemma wf_entry_dir (n : string) (children : list entry) :
  Tree.wf_entry (Dir n children) = true -> good n /\ wf_children (Dir n children).
Proof. simpl. intros H. apply andb_true_iff in H. exact H. Qed.

(** The triples of [os.walk] hold the located files, each once. *)
Lemma walk_located (e : entry) :
  forall ds, Forall good ds -> wf_children e ->
  Permutation (flat_map pairs_of (walk (dir_string ds) e)) (map as_walked (below ds e)).
Proof.
  induction e as [n|n children IH] using entry_induction; intros ds Hds Hwf.
  - constructor.
  - cbn [walk below flat_map]. unfold pairs_of at 1. cbn [fst snd].
    simpl in Hwf. revert Hwf.
    induction IH as [|c children Hc _ IHch]; intros Hwf.
    + constructor.
    + cbn [forallb] in Hwf. apply andb_true_iff in Hwf. destruct Hwf as [Hcwf Hwf].
      specialize (IHch Hwf).
      destruct c as [m|m sub].
      * cbn [filenames filter is_dir negb map name_of flat_map walk located List.app].
        unfold filenames in IHch. unfold as_walked at 1. cbn [fst snd List.app map].
        constructor. exact IHch.
      * destruct (wf_entry_dir m sub Hcwf) as [Hm Hsub].
        cbn [flat_map]. rewrite flat_map_app, map_app.
        change (filenames (Dir m sub :: children)) with (filenames children).
        cbn [name_of]. rewrite (path_join_dir ds m Hds Hm).
        etransitivity; [apply Permutation_app_swap_app|].
        apply Permutation_app.
        -- apply (Hc (ds ++ [m])%list); [|exact Hsub].
           apply Forall_app. split; [exact Hds|]. constructor; [exact Hm|constructor].
        -- exact IHch.
Qed.

Lemma located_good (e : entry) :
  forall ds, Forall good ds -> Tree.wf_entry e = true ->
  forall p, In p (located ds e) -> Forall good (fst p) /\ good (snd p).
Proof.
  induction e as [n|n children IH] using entry_induction; intros ds Hds Hwf p Hin.
  - destruct Hin as [<-|[]]. simpl. split; assumption.
  - destruct (wf_entry_dir n children Hwf) as [Hn Hch]. simpl in Hch.
    cbn [located] in Hin. apply in_flat_map in Hin. destruct Hin as (c & Hc & Hp).
    rewrite Forall_forall in IH. rewrite forallb_forall in Hch.
    apply (IH c Hc (ds ++ [n])%list); auto.
    apply Forall_app. split; [exact Hds|]. constructor; [exact Hn|constructor].
Qed.

Lemma located_files (e : entry) :
  forall ds, map path_of (located ds e) = map (List.app ds) (Tree.files_of e).
Proof.
  induction e as [n|n children IH] using entry_induction; intros ds.
  - reflexivity.
  - cbn [located Tree.files_of]. rewrite map_flat_map, map_map, map_flat_map.
    induction IH as [|c children Hc _ IHch]; simpl.
    + reflexivity.
    + rewrite IHch, Hc. f_equal.
      apply map_ext. intros cs. now rewrite <- app_assoc.
Qed.

Lemma root_files (root : list entry) :
  map path_of (flat_map (located []) root) = Tree.files root.
Proof.
  unfold Tree.files. rewrite map_flat_map.
  apply flat_map_ext. intros e. rewrite located_files.
  apply map_id.
Qed.

Lemma root_good (root : list entry) :
  Tree.wf root = true ->
  forall p, In p (flat_map (located []) root) -> Forall good (fst p) /\ good (snd p).
Proof.
  unfold Tree.wf. intros Hwf p Hin. apply in_flat_map in Hin.
  destruct Hin as (e & He & Hp). rewrite forallb_forall in Hwf.
  apply (located_good e [] (Forall_nil _) (Hwf e He) p Hp).
Qed.

Lemma all_pairs_located (root : list entry) :
  Tree.wf root = true ->
  Permutation (all_pairs root) (map as_walked (flat_map (located []) root)).
Proof.
  intros Hwf. unfold all_pairs, os_walk.
  apply (walk_located (Dir "." root) [] (Forall_nil _) Hwf).
Qed.

(** What a located file looks like to the loop body. *)
Lemma walked_fp (p : list string * string) :
  Forall good (fst p) -> good (snd p) ->
  Tree.fp_of (as_walked p) = "./" ++ Py.join (path_of p).
Proof.
  intros Hd Hn. unfold Tree.fp_of, as_walked, path_of. cbn [fst snd].
  rewrite (path_join_dir _ _ Hd Hn). apply dir_string_dot.
  destruct (fst p); discriminate.
Qed.

Lemma walked_rel (p : list string * string) :
  Forall good (fst p) -> good (snd p) ->
  Tree.rel_of (as_walked p) = Py.join (path_of p).
Proof.
  intros Hd Hn. unfold Tree.rel_of, Tree.fp_of, as_walked, path_of. cbn [fst snd].
  rewrite (path_join_dir _ _ Hd Hn). apply relpath_dir.
  - destruct (fst p); discriminate.
  - apply Forall_app. split; [exact Hd|]. constructor; [exact Hn|constructor].
Qed.

Lemma walked_git (p : list string * string) :
  Forall good (fst p) ->
  Py.mem ".git" (Py.split (fst (as_walked p))) = Tree.under_git (path_of p).
Proof.
  intros Hd. unfold as_walked, path_of, Tree.under_git. cbn [fst].
  rewrite (mem_git_dir _ Hd), removelast_last. reflexivity.
Qed.

End Walk.

(* ================================================================= *)
(** ** Every remaining file is synced once: facts *)

Module Coverage.

Import Os Json Run Paths PathFacts.

Import Kept.






Section Rounds.

Context {E : Env}.




End Rounds.




End Coverage.

(* ================================================================= *)
(** ** The address of a remote file: facts *)

Module Quoting.

Import Address.

Lemma split_nonempty (s : string) : Py.split s <> [].
Proof.
  destruct s as [|c s]; cbn [Py.split]; [discriminate|].
  destruct (Ascii.eqb c Py.sep); [discriminate|].
  destruct (Py.split s); discriminate.
Qed.

Lemma join_empty_head (l : list string) :
  l <> [] -> Py.join ("" :: l) = String Py.sep (Py.join l).
Proof. destruct l; [contradiction|reflexivity]. Qed.

Lemma join_prepend (a x : string) (l : list string) :
  Py.join ((a ++ x) :: l) = a ++ Py.join (x :: l).
Proof.
  destruct l as [|y l]; [reflexivity|].
  rewrite !PathFacts.join_cons. now rewrite PathFacts.append_assoc.
Qed.

Lemma quote_cons (safe : string) (c : ascii) (s : string) :
  Py.quote safe (String c s) = Py.quote safe (String c "") ++ Py.quote safe s.
Proof.
  cbn [Py.quote]. destruct (Py.char_in c Py.always_safe || Py.char_in c safe); reflexivity.
Qed.

Lemma quote_char_no_sep (c : ascii) :
  Ascii.eqb c Py.sep = false -> Py.quote "/" (String c "") = Py.quote "" (String c "").
Proof.
  intros H. cbn [Py.quote].
  change (Py.char_in c "/") with (Ascii.eqb c Py.sep || false).
  change (Py.char_in c "") with false.
  rewrite H. reflexivity.
Qed.

(** Quoting a path with [/] kept is quoting each of its parts with
    nothing kept and joining them again. *)
Lemma quote_parts (s : string) :
  Py.join (map (Py.quote "") (Py.split s)) = Py.quote "/" s.
Proof.
  induction s as [|c s IH].
  - reflexivity.
  - rewrite (quote_cons "/" c s). cbn [Py.split].
    destruct (Ascii.eqb c Py.sep) eqn:Hc.
    + apply Ascii.eqb_eq in Hc. subst c. cbn [map].
      change (Py.quote "" "") with "".
      rewrite join_empty_head, IH; [reflexivity|].
      intros H. apply map_eq_nil in H. now apply split_nonempty in H.
    + rewrite (quote_char_no_sep c Hc).
      destruct (Py.split s) as [|h t] eqn:Hs; [now apply split_nonempty in Hs|].
      cbn [map] in *. rewrite (quote_cons "" c h), join_prepend, IH. reflexivity.
Qed.

(** X1: the URL [upload_via_curl.py] writes to, built by quoting each
    part of the relative path and joining the parts with [/], is the
    API host followed by the very path the lookup asked for, which was
    built by quoting the relative path as a whole: lookup and write
    address the same remote file. *)
Theorem url_is_lookup_path (rel : string) :
  Curl.url_of rel = host ++ lookup_path (Curl.gh_get_cmd (Py.quote "/" rel)).
Proof.
  unfold Curl.url_of, lookup_path, Curl.gh_get_cmd, host. cbn [nth].
  rewrite quote_parts. reflexivity.
Qed.

Lemma hex_digit_value (n : N) :
  (n < 16)%N -> Base64.find_digit (Py.hex_digit n) "0123456789ABCDEF" 0 = Some n.
Proof.
  intros H.
  assert (Hall : forallb (fun k => match Base64.find_digit (Py.hex_digit (N.of_nat k))
                                           "0123456789ABCDEF" 0 with
                                   | Some d => N.eqb d (N.of_nat k)
                                   | None => false
                                   end) (seq 0 16) = true) by (vm_compute; reflexivity).
  rewrite forallb_forall in Hall.
  specialize (Hall (N.to_nat n)). rewrite N2Nat.id in Hall.
  destruct (Base64.find_digit (Py.hex_digit n) "0123456789ABCDEF" 0) as [d|].
  - f_equal. apply N.eqb_eq. apply Hall. apply in_seq. lia.
  - discriminate Hall. apply in_seq. lia.
Qed.

Lemma hex_digit_inj (a b : N) :
  (a < 16)%N -> (b < 16)%N -> Py.hex_digit a = Py.hex_digit b -> a = b.
Proof.
  intros Ha Hb H. pose proof (hex_digit_value a Ha) as H1.
  rewrite H, (hex_digit_value b Hb) in H1. now injection H1.
Qed.

Lemma ascii_of_hex (c1 c2 : ascii) :
  Py.hex_digit (N_of_ascii c1 / 16) = Py.hex_digit (N_of_ascii c2 / 16) ->
  Py.hex_digit (N_of_ascii c1 mod 16) = Py.hex_digit (N_of_ascii c2 mod 16) ->
  c1 = c2.
Proof.
  intros Hh Hl.
  pose proof (N_ascii_bounded c1). pose proof (N_ascii_bounded c2).
  apply hex_digit_inj in Hh; [|lia|lia].
  apply hex_digit_inj in Hl; [|lia|lia].
  rewrite <- (ascii_N_embedding c1), <- (ascii_N_embedding c2). f_equal. lia.
Qed.

(** Quoting loses nothing, as long as [%] itself is not kept. *)
Lemma quote_inj (safe : string) :
  Py.char_in "%" safe = false ->
  forall s1 s2, Py.quote safe s1 = Py.quote safe s2 -> s1 = s2.
Proof.
  intros Hsafe.
  assert (Hpc : forall c, Py.char_in c Py.always_safe || Py.char_in c safe = true ->
                          c <> "%"%char).
  { intros c Hc ->. rewrite Hsafe in Hc. discriminate Hc. }
  induction s1 as [|c1 s1 IH]; intros [|c2 s2] H.
  - reflexivity.
  - cbn [Py.quote] in H.
    destruct (Py.char_in c2 Py.always_safe || Py.char_in c2 safe); discriminate.
  - cbn [Py.quote] in H.
    destruct (Py.char_in c1 Py.always_safe || Py.char_in c1 safe); discriminate.
  - cbn [Py.quote] in H.
    destruct (Py.char_in c1 Py.always_safe || Py.char_in c1 safe) eqn:H1;
      destruct (Py.char_in c2 Py.always_safe || Py.char_in c2 safe) eqn:H2.
    + injection H as -> H. f_equal. now apply IH.
    + injection H as Hc _. now apply Hpc in H1.
    + injection H as Hc _. symmetry in Hc. now apply Hpc in H2.
    + injection H as Hh Hl H. f_equal; [now apply ascii_of_hex|now apply IH].
Qed.

Lemma append_cancel (a x y : string) : a ++ x = a ++ y -> x = y.
Proof.
  induction a as [|c a IH]; cbn [append]; intros H; [exact H|].
  injection H as H. now apply IH.
Qed.

Lemma join_inj (cs1 cs2 : list string) :
  cs1 <> [] -> cs2 <> [] -> Forall Paths.no_sep cs1 -> Forall Paths.no_sep cs2 ->
  Py.join cs1 = Py.join cs2 -> cs1 = cs2.
Proof.
  intros N1 N2 F1 F2 H.
  rewrite <- (PathFacts.split_join cs1 N1 F1), <- (PathFacts.split_join cs2 N2 F2).
  now rewrite H.
Qed.

Lemma lookup_cmd_inj (p1 p2 : string) :
  Curl.gh_get_cmd p1 = Curl.gh_get_cmd p2 -> p1 = p2.
Proof.
  intros H. apply (f_equal (fun c => nth 2 c "")) in H.
  unfold Curl.gh_get_cmd in H. cbn [nth] in H.
  apply (append_cancel "/repos/") in H. apply (append_cancel Curl.REPO) in H.
  now apply (append_cancel "/contents/") in H.
Qed.

(** X2: two different files are never looked up or written under the
    same remote path: quoting keeps [%] apart from the characters it
    leaves alone, and names without a separator can be read back from
    the joined path. *)
Theorem remote_paths_distinct (cs1 cs2 : list string) :
  cs1 <> [] -> cs2 <> [] -> Forall Paths.no_sep cs1 -> Forall Paths.no_sep cs2 ->
  cs1 <> cs2 ->
  Curl.gh_get_cmd (Py.quote "/" (Py.join cs1)) <> Curl.gh_get_cmd (Py.quote "/" (Py.join cs2))
  /\ Curl.url_of (Py.join cs1) <> Curl.url_of (Py.join cs2).
Proof.
  intros N1 N2 F1 F2 Hne.
  assert (Hq : Py.quote "/" (Py.join cs1) <> Py.quote "/" (Py.join cs2)).
  { intros H. apply (quote_inj "/" eq_refl) in H. now apply Hne, join_inj. }
  split.
  - intros H. apply Hq. now apply lookup_cmd_inj.
  - unfold Curl.url_of. cbv zeta. rewrite !quote_parts. intros H.
    apply (append_cancel "https://api.github.com/repos/") in H.
    apply (append_cancel Curl.REPO) in H.
    now apply (append_cancel "/contents/") in H.
Qed.

Lemma remote_paths_distinct_witness :
  Curl.gh_get_cmd (Py.quote "/" (Py.join ["docs"; "a b.txt"]))
  <> Curl.gh_get_cmd (Py.quote "/" (Py.join ["docs"; "a%20b.txt"]))
  /\ Curl.url_of (Py.join ["docs"; "a b.txt"]) <> Curl.url_of (Py.join ["docs"; "a%20b.txt"]).
Proof.
  apply (remote_paths_distinct ["docs"; "a b.txt"] ["docs"; "a%20b.txt"]);
    try discriminate; repeat constructor.
Defined.

End Quoting.

(* ================================================================= *)
(** ** Quoted paths, the token, the exclusion patterns *)

Module Clean.

Import Os Json Run.

Import Text.




Lemma prefix_append (p x : string) : String.prefix p (p ++ x) = true.
Proof.
  induction p as [|c p IH]; cbn [append String.prefix].
  - now destruct x.
  - destruct (ascii_dec c c) as [_|Hne]; [exact IH|contradiction].
Qed.

Lemma prefix_split (p s : string) :
  String.prefix p s = true -> exists x, s = p ++ x.
Proof.
  revert s. induction p as [|c p IH]; intros s H.
  - exists s. reflexivity.
  - destruct s as [|d s]; [discriminate|]. cbn [String.prefix] in H.
    destruct (ascii_dec c d) as [<-|]; [|discriminate].
    destruct (IH s H) as (x & ->). exists x. reflexivity.
Qed.

Lemma endswith_self (p : string) : Py.endswith p p = true.
Proof.
  destruct p as [|c p].
  - reflexivity.
  - change (Py.endswith (String c p) (String c p))
      with (String.eqb (String c p) (String c p) || Py.endswith p (String c p)).
    now rewrite String.eqb_refl.
Qed.

Lemma endswith_append (x p : string) : Py.endswith (x ++ p) p = true.
Proof.
  induction x as [|c x IH]; cbn [append].
  - apply endswith_self.
  - change (Py.endswith (String c (x ++ p)) p)
      with (String.eqb (String c (x ++ p)) p || Py.endswith (x ++ p) p).
    rewrite IH. apply orb_true_r.
Qed.

Lemma endswith_split (s p : string) :
  Py.endswith s p = true -> exists x, s = x ++ p.
Proof.
  induction s as [|c s IH]; cbn [Py.endswith]; intros H.
  - rewrite orb_false_r in H. apply String.eqb_eq in H. exists "". exact H.
  - apply orb_true_iff in H. destruct H as [H|H].
    + apply String.eqb_eq in H. exists "". exact H.
    + destruct (IH H) as (x & ->). exists (String c x). reflexivity.
Qed.

(** X4: the four exclusion tests of [upload_via_curl.py] are tests on
    the text of the relative path, not on its components: a path is
    skipped exactly when it is one of the three prefixes followed by
    anything (so [astro-app/.astroturf/x] is skipped as well) or
    anything followed by [.DS_Store] (so [notes.DS_Store] is). *)
Theorem skip_is_textual (rel : string) :
  Curl.skipped rel = true <->
  exists x,
    rel = "astro-app/.git-submodule-backup" ++ x \/
    rel = ".video_push_logs" ++ x \/
    rel = "astro-app/.astro" ++ x \/
    rel = x ++ ".DS_Store".
Proof.
  unfold Curl.skipped, Py.startswith. split.
  - intros H.
    destruct (String.prefix "astro-app/.git-submodule-backup" rel) eqn:H1;
      [apply prefix_split in H1; destruct H1 as (x & ->); eauto|].
    destruct (String.prefix ".video_push_logs" rel) eqn:H2;
      [apply prefix_split in H2; destruct H2 as (x & ->); eauto|].
    destruct (String.prefix "astro-app/.astro" rel) eqn:H3;
      [apply prefix_split in H3; destruct H3 as (x & ->); eauto|].
    destruct (Py.endswith rel ".DS_Store") eqn:H4; [|discriminate].
    apply endswith_split in H4. destruct H4 as (x & ->). eauto.
  - intros (x & [-> | [-> | [-> | ->]]]).
    + now rewrite prefix_append.
    + rewrite (prefix_append ".video_push_logs" x).
      now destruct (String.prefix "astro-app/.git-submodule-backup" (".video_push_logs" ++ x)).
    + rewrite (prefix_append "astro-app/.astro" x).
      destruct (String.prefix "astro-app/.git-submodule-backup" ("astro-app/.astro" ++ x));
        [reflexivity|].
      now destruct (String.prefix ".video_push_logs" ("astro-app/.astro" ++ x)).
    + rewrite endswith_append.
      destruct (String.prefix "astro-app/.git-submodule-backup" (x ++ ".DS_Store"));
        [reflexivity|].
      destruct (String.prefix ".video_push_logs" (x ++ ".DS_Store")); [reflexivity|].
      now destruct (String.prefix "astro-app/.astro" (x ++ ".DS_Store")).
Qed.







End Clean.

(* ================================================================= *)
(** ** The local path and the remote path of a file *)

Module Mapping.

Import Os Json Run Paths.

Lemma candidate_file (root : list entry) (c : string * string) :
  Tree.wf root = true -> In c (Tree.candidates root) ->
  exists p,
    In p (flat_map (Located.located []) root) /\ c = Located.as_walked p /\
    Forall good (fst p) /\ good (snd p) /\
    Tree.under_git (Located.path_of p) = false.
Proof.
  intros Hwf Hin. rewrite Walk.candidates_filter in Hin.
  apply filter_In in Hin. destruct Hin as [Hin Hgit].
  apply (Permutation_in _ (Walk.all_pairs_located root Hwf)) in Hin.
  apply in_map_iff in Hin. destruct Hin as (p & <- & Hp).
  destruct (Walk.root_good root Hwf p Hp) as [Hd Hn].
  exists p. repeat split; try assumption.
  rewrite (Walk.walked_git p Hd) in Hgit. now apply negb_true_iff in Hgit.
Qed.

Lemma path_no_sep (p : list string * string) :
  Forall good (fst p) -> good (snd p) -> Forall no_sep (Located.path_of p).
Proof.
  intros Hd Hn. unfold Located.path_of. apply Forall_app. split.
  - eapply Forall_impl; [|exact Hd]. intros n H. now apply PathFacts.good_parts in H.
  - constructor; [|constructor]. now apply PathFacts.good_parts in Hn.
Qed.

Lemma candidate_paths (root : list entry) (c : string * string) :
  Tree.wf root = true -> In c (Tree.candidates root) ->
  exists cs,
    In cs (Tree.files root) /\ Tree.under_git cs = false /\ Forall no_sep cs /\ cs <> [] /\
    Tree.fp_of c = "./" ++ Py.join cs /\ Tree.rel_of c = Py.join cs.
Proof.
  intros Hwf Hin.
  destruct (candidate_file root c Hwf Hin) as (p & Hp & -> & Hd & Hn & Hgit).
  exists (Located.path_of p). repeat split.
  - rewrite <- Walk.root_files. now apply in_map.
  - exact Hgit.
  - now apply path_no_sep.
  - unfold Located.path_of. destruct (fst p); discriminate.
  - now apply Walk.walked_fp.
  - now apply Walk.walked_rel.
Qed.

Lemma startswith_dot (s abspath : string) :
  Py.startswith abspath "/" = true -> String.eqb ("./" ++ s) abspath = false.
Proof.
  unfold Py.startswith. intros H. apply String.eqb_neq. intros <-. discriminate H.
Qed.

Lemma filter_all {A} (f : A -> bool) (l : list A) :
  (forall x, In x l -> f x = true) -> filter f l = l.
Proof.
  induction l as [|x l IH]; intros H; [reflexivity|].
  cbn [filter]. rewrite (H x (or_introl eq_refl)). f_equal.
  apply IH. intros y Hy. apply H. now right.
Qed.

(** X6: for every file the loops reach in a tree of well-formed names,
    the relative path that goes into the message and the remote path,
    split at the separators, gives back the names that lead to the file
    in the tree, none of its directories being [.git]; and the path that
    is opened is that relative path behind [./]. *)
Theorem local_and_remote_match (root : list entry) (c : string * string) :
  Tree.wf root = true -> In c (Tree.candidates root) ->
  In (Py.split (Tree.rel_of c)) (Tree.files root) /\
  Tree.under_git (Py.split (Tree.rel_of c)) = false /\
  Tree.fp_of c = "./" ++ Tree.rel_of c /\
  Tree.fp_of c = Kept.shown (Py.split (Tree.rel_of c)).
Proof.
  intros Hwf Hin.
  destruct (candidate_paths root c Hwf Hin) as (cs & Hf & Hgit & Hsep & Hne & Hfp & Hrel).
  rewrite Hrel, Hfp, (PathFacts.split_join cs Hne Hsep). auto.
Qed.

Lemma local_and_remote_match_witness :
  In (Py.split (Tree.rel_of ("./docs", "a b.txt"))) (Tree.files Cases.site) /\
  Tree.under_git (Py.split (Tree.rel_of ("./docs", "a b.txt"))) = false /\
  Tree.fp_of ("./docs", "a b.txt") = "./" ++ Tree.rel_of ("./docs", "a b.txt") /\
  Tree.fp_of ("./docs", "a b.txt") = Kept.shown (Py.split (Tree.rel_of ("./docs", "a b.txt"))).
Proof.
  apply (local_and_remote_match Cases.site ("./docs", "a b.txt")).
  - reflexivity.
  - vm_compute. auto.
Defined.

(** X7: the test of [upload_via_gh.py] against its own path never
    holds.  [os.path.abspath] gives a path that starts with the
    separator, the paths built from [os.walk('.')] start with [./]; so
    no file is skipped by it, and the script uploads itself when it lies
    under the root. *)
Theorem self_skip_never_fires (E : Env) (root : list entry) (st : state E) :
  Tree.wf root = true ->
  Py.startswith (script_abspath E) "/" = true ->
  GhLoop.eligible (script_abspath E) root = Tree.candidates root /\
  Gh.files_loop root st = for_each (Tree.candidates root) GhLoop.round_of st /\
  forall cs, Kept.gh_keeps (script_abspath E) cs = negb (Tree.under_git cs).
Proof.
  intros Hwf Habs.
  assert (Hel : GhLoop.eligible (script_abspath E) root = Tree.candidates root).
  { unfold GhLoop.eligible. apply filter_all. intros c Hc.
    destruct (candidate_paths root c Hwf Hc) as (cs & _ & _ & _ & _ & Hfp & _).
    rewrite Hfp, (startswith_dot _ _ Habs). reflexivity. }
  split; [exact Hel|]. split.
  - rewrite GhFacts.gh_files_loop_rounds, Hel. reflexivity.
  - intros cs. unfold Kept.gh_keeps, Kept.shown.
    rewrite (startswith_dot _ _ Habs). apply andb_true_r.
Qed.

Lemma self_skip_never_fires_witness :
  GhLoop.eligible (script_abspath Demo.env) Cases.site = Tree.candidates Cases.site /\
  Gh.files_loop Cases.site (start (E := Demo.env) tt)
  = for_each (Tree.candidates Cases.site) GhLoop.round_of (start (E := Demo.env) tt) /\
  forall cs, Kept.gh_keeps (script_abspath Demo.env) cs = negb (Tree.under_git cs).
Proof.
  apply (self_skip_never_fires Demo.env Cases.site (start (E := Demo.env) tt)); reflexivity.
Defined.

End Mapping.

(* ================================================================= *)
(** ** A file that cannot be read, a lookup that times out *)

Module Edge.

Import Os Json Run.

(** X8: a file that cannot be read costs one error and nothing else:
    no payload is written and no PUT is sent.  The curl script has made
    its lookup by then; the gh script, which reads first, starts no
    child process at all for such a file. *)
Theorem unreadable_file :
  (forall (E : Env) (TOKEN fp rel : string) (st : state E) (msg : string),
      let call := spawn E (Curl.gh_get_cmd (Py.quote "/" rel)) (world st) in
      let r := wait (Some 60%Z) (fst call) in
      fst (open_rb E fp (snd call)) = ReadError msg ->
      exists st',
        Curl.sync TOKEN fp rel st = Ret tt st' /\
        out st' = (out st ++ EvRun (Curl.gh_get_cmd (Py.quote "/" rel)) (Some 60%Z) r
                     :: TokenSpec.timeout_note (Py.quote "/" rel) r
                     ++ [EvOpen fp (ReadError msg);
                         EvPrint false (Py.print_line ["[ERROR] read"; rel; msg])])%list /\
        success st' = success st /\ errors st' = (errors st + 1)%Z)
  /\
  (forall (E : Env) (fp rel : string) (st : state E) (msg : string),
      fst (open_rb E fp (world st)) = ReadError msg ->
      exists st',
        Gh.sync fp rel st = Ret tt st' /\
        out st' = (out st ++ [EvOpen fp (ReadError msg);
                              EvPrint false ("[ERROR] read " ++ rel ++ ": " ++ msg)])%list /\
        success st' = success st /\ errors st' = (errors st + 1)%Z).
Proof.
  split.
  - intros E TOKEN fp rel st msg call r Hread. subst r call.
    unfold TokenSpec.timeout_note.
    destruct (spawn E (Curl.gh_get_cmd (Py.quote "/" rel)) (world st)) as [b w1] eqn:Hs.
    cbn [fst snd] in *.
    destruct (open_rb E fp w1) as [rd w2] eqn:Ho. cbn [fst] in Hread. subst rd.
    unfold Curl.sync, Curl.gh_get, Curl.add_error, Curl.add_success.
    unfold_run. rewrite Hs.
    destruct b as [secs cp|]; [destruct (secs <=? 60)%Z|]; simpl; rewrite Ho; simpl;
      eexists; (split; [reflexivity|]); simpl; rewrite <- ?app_assoc; auto.
  - intros E fp rel st msg Hread.
    destruct (open_rb E fp (world st)) as [rd w1] eqn:Ho. cbn [fst] in Hread. subst rd.
    unfold Gh.sync, Gh.add_error. unfold_run. rewrite Ho. simpl.
    eexists. split; [reflexivity|]. simpl. rewrite <- ?app_assoc. auto.
Qed.

Lemma unreadable_file_witness :
  (exists st',
      Curl.sync "gho_example" "./a.txt" "a.txt" (start (E := Cases.env_locked) tt) = Ret tt st' /\
      out st' = [EvRun (Curl.gh_get_cmd "a.txt") (Some 60%Z) (Completed Demo.not_found);
                 EvOpen "./a.txt" (ReadError "[Errno 13] Permission denied: './a.txt'");
                 EvPrint false "[ERROR] read a.txt [Errno 13] Permission denied: './a.txt'"] /\
      success st' = 0%Z /\ errors st' = 1%Z)
  /\
  (exists st',
      Gh.sync "./a.txt" "a.txt" (start (E := Cases.env_locked) tt) = Ret tt st' /\
      out st' = [EvOpen "./a.txt" (ReadError "[Errno 13] Permission denied: './a.txt'");
                 EvPrint false "[ERROR] read a.txt: [Errno 13] Permission denied: './a.txt'"] /\
      success st' = 0%Z /\ errors st' = 1%Z).
Proof.
  split.
  - apply (proj1 unreadable_file Cases.env_locked "gho_example" "./a.txt" "a.txt"
                 (start (E := Cases.env_locked) tt)). reflexivity.
  - apply (proj2 unreadable_file Cases.env_locked "./a.txt" "a.txt"
                 (start (E := Cases.env_locked) tt)). reflexivity.
Defined.

(** X9: when the lookup of the curl script times out, the line
    [[ERROR] gh api GET timeout for ...] is printed but counted by
    neither counter: the round still ends with exactly one counted
    status line, that of the read or of the PUT, and a payload written
    in it has no [sha]. *)
Theorem lookup_timeout_not_counted (E : Env) (TOKEN fp rel : string) (st : state E) :
  wait (Some 60%Z) (fst (spawn E (Curl.gh_get_cmd (Py.quote "/" rel)) (world st)))
  = TimeoutExpired ->
  exists st' tail,
    Curl.sync TOKEN fp rel st = Ret tt st' /\
    out st' = (out st ++ EvRun (Curl.gh_get_cmd (Py.quote "/" rel)) (Some 60%Z) TimeoutExpired
                 :: EvPrint false ("[ERROR] gh api GET timeout for " ++ Py.quote "/" rel)
                 :: tail)%list /\
    success st' = (success st + Log.oks tail)%Z /\
    errors st' = (errors st + Log.fails tail)%Z /\
    (Log.oks tail + Log.fails tail = 1)%Z /\
    map Log.has_sha_key (flat_map Log.dumped tail) = map (fun _ => false) (flat_map Log.dumped tail).
Proof.
  intros Hw.
  destruct (spawn E (Curl.gh_get_cmd (Py.quote "/" rel)) (world st)) as [b w1] eqn:Hs.
  cbn [fst] in Hw.
  assert (Hb : match b with Finishes secs _ => (secs <=? 60)%Z = false | Never => True end).
  { destruct b as [secs cp|]; [|exact I]. simpl in Hw.
    destruct (secs <=? 60)%Z; [discriminate|reflexivity]. }
  clear Hw.
  unfold Curl.sync, Curl.gh_get, Curl.add_error, Curl.add_success.
  unfold_run. rewrite Hs.
  destruct b as [secs cp|]; [rewrite Hb|]; simpl;
    split_cases; do 2 eexists; (split; [reflexivity|]); simpl; rewrite <- ?app_assoc; simpl;
    (split; [reflexivity|]); unfold Log.oks, Log.fails; simpl; repeat split; lia.
Qed.

Lemma lookup_timeout_not_counted_witness :
  exists st' tail,
    Curl.sync "gho_example" "./a.txt" "a.txt" (start (E := Demo.env_stuck) tt) = Ret tt st' /\
    out st' = (out (start (E := Demo.env_stuck) tt)
                 ++ EvRun (Curl.gh_get_cmd (Py.quote "/" "a.txt")) (Some 60%Z) TimeoutExpired
                 :: EvPrint false ("[ERROR] gh api GET timeout for " ++ Py.quote "/" "a.txt")
                 :: tail)%list /\
    success st' = (success (start (E := Demo.env_stuck) tt) + Log.oks tail)%Z /\
    errors st' = (errors (start (E := Demo.env_stuck) tt) + Log.fails tail)%Z /\
    (Log.oks tail + Log.fails tail = 1)%Z /\
    map Log.has_sha_key (flat_map Log.dumped tail) = map (fun _ => false) (flat_map Log.dumped tail).
Proof.
  apply (lookup_timeout_not_counted Demo.env_stuck "gho_example" "./a.txt" "a.txt"
           (start (E := Demo.env_stuck) tt)).
  reflexivity.
Defined.

End Edge.

(* ================================================================= *)
(** ** The request carries the file *)

Module Content.

Import Os Json Run.

Lemma encoding_decodes (bs : list byte) :
  Base64.b64decode (Base64.b64encode bs) = Some bs.
Proof.
  induction bs as [|a|a b|a b c l IH] using Base64Facts.list_ind3.
  - reflexivity.
  - cbn [Base64.b64encode Base64.b64decode]. rewrite Ascii.eqb_refl.
    apply Base64Facts.decode_one_encode.
  - cbn [Base64.b64encode Base64.b64decode].
    pose proof (Byte.to_N_bounded a). pose proof (Byte.to_N_bounded b).
    rewrite Ascii.eqb_refl, Base64Facts.digit_char_not_pad by lia.
    apply Base64Facts.decode_two_encode.
  - cbn [Base64.b64encode Base64.b64decode].
    pose proof (Byte.to_N_bounded a). pose proof (Byte.to_N_bounded b).
    pose proof (Byte.to_N_bounded c).
    rewrite Base64Facts.digit_char_not_pad by lia.
    rewrite Base64Facts.decode_full_encode, IH. reflexivity.
Qed.

Lemma payload_fields (rel content : string) (sha : json) :
  py_getitem (Curl.payload_of rel content sha) "message"
  = Some (JStr ("chore: add " ++ rel ++ " via API")) /\
  py_getitem (Curl.payload_of rel content sha) "content" = Some (JStr content).
Proof. unfold Curl.payload_of. destruct (truthy sha); split; reflexivity. Qed.

Lemma put_fields {E : Env} (path msg content : string) (sha : json) :
  In ("message=" ++ msg) (Gh.gh_put_cmd (E := E) path msg content sha) /\
  In ("content=" ++ content) (Gh.gh_put_cmd (E := E) path msg content sha).
Proof.
  unfold Gh.gh_put_cmd. split; apply in_or_app; left; cbn [In]; tauto.
Qed.

(** X10: for a file that can be read, the one payload the curl script
    writes names the file in its message and holds under [content] a
    text that decodes to exactly the bytes read; so does the [content=]
    field of the one PUT of the gh script. *)
Theorem request_carries_file :
  (forall (E : Env) (TOKEN fp rel : string) (st : state E) (data : list byte),
      fst (open_rb E fp (snd (spawn E (Curl.gh_get_cmd (Py.quote "/" rel)) (world st))))
      = ReadOk data ->
      exists added payload s,
        out (state_of (Curl.sync TOKEN fp rel st)) = (out st ++ added)%list /\
        flat_map Log.dumped added = [payload] /\
        py_getitem payload "message" = Some (JStr ("chore: add " ++ rel ++ " via API")) /\
        py_getitem payload "content" = Some (JStr s) /\
        Base64.b64decode s = Some data)
  /\
  (forall (E : Env) (fp rel : string) (st : state E) (data : list byte)
          (secs : Z) (cp : CompletedProcess),
      fst (open_rb E fp (world st)) = ReadOk data ->
      fst (spawn E (Gh.gh_get_cmd (Py.quote "/" rel)) (snd (open_rb E fp (world st))))
      = Finishes secs cp ->
      exists added cmd s,
        out (state_of (Gh.sync fp rel st)) = (out st ++ added)%list /\
        map Log.command (filter Log.is_write added) = [cmd] /\
        In ("message=" ++ "chore: add " ++ rel ++ " via API") cmd /\
        In ("content=" ++ s) cmd /\
        Base64.b64decode s = Some data).
Proof.
  split.
  - intros E TOKEN fp rel st data Hread.
    destruct (Token.curl_round_log TOKEN fp rel st data Hread) as (rq & line & Hlog).
    destruct (payload_fields rel (Base64.b64encode data)
                (Curl.sha_of (E := E)
                   (CurlLoop.reply
                      (wait (Some 60%Z)
                            (fst (spawn E (Curl.gh_get_cmd (Py.quote "/" rel)) (world st)))))))
      as [Hm Hc].
    eexists _, _, (Base64.b64encode data). split; [exact Hlog|].
    split; [|split; [exact Hm|split; [exact Hc|apply encoding_decodes]]].
    unfold TokenSpec.curl_round, TokenSpec.timeout_note.
    destruct (wait (Some 60%Z) _); reflexivity.
  - intros E fp rel st data secs cp Hread Hlook.
    destruct (Token.gh_round_log fp rel st data secs cp Hread Hlook)
      as (rq & tail & Hnw & Hlog).
    destruct (put_fields (E := E) (Py.quote "/" rel) ("chore: add " ++ rel ++ " via API")
                (Base64.b64encode data) (Gh.sha_of (E := E) cp)) as [Hm Hc].
    eexists _, _, (Base64.b64encode data). split; [exact Hlog|].
    split; [|split; [exact Hm|split; [exact Hc|apply encoding_decodes]]].
    unfold TokenSpec.gh_round. cbn [filter].
    change (Gh.gh_get_cmd ?p) with (Curl.gh_get_cmd p).
    rewrite Order.is_write_open, Order.is_write_lookup, Order.is_write_put.
    replace (filter Log.is_write tail) with (@nil event); [reflexivity|].
    symmetry. clear Hlog. induction tail as [|e tail IH]; [reflexivity|].
    cbn [filter]. rewrite (Hnw e (or_introl eq_refl)).
    apply IH. intros e' He'. apply Hnw. now right.
Qed.

Lemma request_carries_file_witness :
  (exists added payload s,
      out (state_of (Curl.sync "gho_example" "./b.bin" "b.bin" (start (E := Demo.env) tt)))
      = (out (start (E := Demo.env) tt) ++ added)%list /\
      flat_map Log.dumped added = [payload] /\
      py_getitem payload "message" = Some (JStr ("chore: add " ++ "b.bin" ++ " via API")) /\
      py_getitem payload "content" = Some (JStr s) /\
      Base64.b64decode s = Some Demo.hello)
  /\
  (exists added cmd s,
      out (state_of (Gh.sync "./b.bin" "b.bin" (start (E := Demo.env) tt)))
      = (out (start (E := Demo.env) tt) ++ added)%list /\
      map Log.command (filter Log.is_write added) = [cmd] /\
      In ("message=" ++ "chore: add " ++ "b.bin" ++ " via API") cmd /\
      In ("content=" ++ s) cmd /\
      Base64.b64decode s = Some Demo.hello).
Proof.
  split.
  - apply (proj1 request_carries_file Demo.env). reflexivity.
  - apply (proj2 request_carries_file Demo.env "./b.bin" "b.bin" (start (E := Demo.env) tt)
                 Demo.hello 1%Z (mkCompleted 0 Demo.found "")); reflexivity.
Defined.

End Content.

(* ================================================================= *)
(** ** The log of one round, event by event: facts *)

Module Rounds.

Import Os Json Run.

Import Trace.

Section Facts.

Context {E : Env}.

Lemma curl_sync_trace (TOKEN fp rel : string) (st : state E) :
  exists b1 rd b2 st',
    Curl.sync TOKEN fp rel st = Ret tt st' /\
    out st' = (out st ++ curl_trace E TOKEN fp rel
                          (wait (Some 60%Z) b1) rd (wait (Some 120%Z) b2))%list.
Proof.
  destruct (spawn E (Curl.gh_get_cmd (Py.quote "/" rel)) (world st)) as [b1 w1] eqn:Hs.
  destruct (open_rb E fp w1) as [rd w2] eqn:Ho.
  exists b1, rd.
  unfold curl_trace, curl_line, is_stored, VerdictSpec.failure_text, TokenSpec.timeout_note,
    CurlLoop.reply.
  unfold Curl.sync, Curl.gh_get, Curl.add_error, Curl.add_success.
  unfold_run. rewrite Hs.
  destruct rd as [data|msg].
  - destruct b1 as [secs cp|]; [destruct (secs <=? 60)%Z|]; simpl; rewrite Ho; simpl;
      match goal with
      | |- context [spawn E (Curl.curl_cmd TOKEN rel) ?w] =>
          destruct (spawn E (Curl.curl_cmd TOKEN rel) w) as [b2 w3] eqn:Hq
      end;
      exists b2; split_cases; eexists; (split; [reflexivity|]);
      simpl; rewrite <- ?app_assoc; reflexivity.
  - exists Never.
    destruct b1 as [secs cp|]; [destruct (secs <=? 60)%Z|]; simpl; rewrite Ho; simpl;
      eexists; (split; [reflexivity|]); simpl; rewrite <- ?app_assoc; reflexivity.
Qed.

Lemma gh_sync_trace (fp rel : string) (st : state E) :
  exists rd b1 b2,
    out (state_of (Gh.sync fp rel st))
    = (out st ++ gh_trace E fp rel rd (wait None b1) (wait None b2))%list.
Proof.
  destruct (open_rb E fp (world st)) as [rd w1] eqn:Ho.
  exists rd.
  unfold gh_trace, gh_line.
  unfold Gh.sync, Gh.gh_get, Gh.gh_put, Gh.add_error, Gh.add_success.
  unfold_run. rewrite Ho.
  destruct rd as [data|msg]; simpl.
  - destruct (spawn E (Gh.gh_get_cmd (Py.quote "/" rel)) w1) as [b1 w2] eqn:Hs.
    exists b1. destruct b1 as [secs cp|]; simpl.
    + match goal with
      | |- context [spawn E (Gh.gh_put_cmd ?a ?b ?c ?d) ?w] =>
          destruct (spawn E (Gh.gh_put_cmd a b c d) w) as [b2 w3] eqn:Hq
      end.
      exists b2. destruct b2 as [secs2 q|]; simpl;
        split_cases; simpl; rewrite <- ?app_assoc; reflexivity.
    + exists Never. rewrite <- ?app_assoc. reflexivity.
  - exists Never, Never. rewrite <- ?app_assoc. reflexivity.
Qed.

Lemma curl_round_piece (TOKEN : string) (c : string * string) (st : state E) :
  exists seg,
    out (state_of (CurlLoop.round_of TOKEN c st)) = (out st ++ seg)%list /\
    curl_visit E TOKEN c seg.
Proof.
  destruct (curl_sync_trace TOKEN (Tree.fp_of c) (Tree.rel_of c) st)
    as (b1 & rd & b2 & st' & Hr & Hout).
  unfold CurlLoop.round_of. rewrite Hr. cbn [state_of].
  eexists. split; [exact Hout|]. exists b1, rd, b2. reflexivity.
Qed.

Lemma gh_round_piece (c : string * string) (st : state E) :
  exists seg,
    out (state_of (GhLoop.round_of c st)) = (out st ++ seg)%list /\ gh_visit E c seg.
Proof.
  destruct (gh_sync_trace (Tree.fp_of c) (Tree.rel_of c) st)
    as (rd & b1 & b2 & Hout).
  eexists. split; [exact Hout|]. exists rd, b1, b2. reflexivity.
Qed.

(** A run of the curl script that got its token: the call of the
    helper, one piece per eligible file, the summary line. *)
Lemma curl_granted_pieces (P : string * string -> list event -> Prop)
      (root : list entry) (st : state E) (cp : CompletedProcess) :
  (forall c (s : state E), exists seg,
      out (state_of (CurlLoop.round_of (Py.strip (stdout cp)) c s)) = (out s ++ seg)%list /\
      P c seg) ->
  wait (Some 10%Z) (fst (spawn E Curl.token_cmd (world st))) = Completed cp ->
  returncode cp = 0%Z ->
  exists segs st',
    Curl.main root st = Exit (if (errors st' >? 0)%Z then 2%Z else 0%Z) st' /\
    out st' = (out st ++ EvRun Curl.token_cmd (Some 10%Z) (Completed cp)
                 :: List.concat segs
                 ++ [EvPrint false (CurlLoop.summary_line (success st') (errors st'))])%list /\
    Forall2 P (CurlLoop.eligible root) segs.
Proof.
  intros HP Hw Hrc.
  rewrite (CurlFacts.main_granted root st cp Hw Hrc). unfold bind.
  rewrite CurlFacts.files_loop_rounds.
  destruct (Laws.for_each_pieces P
              (CurlLoop.eligible root) (CurlLoop.round_of (Py.strip (stdout cp)))
              (fun c s _ => HP c s)
              (CurlLoop.granted st cp)) as (segs & Hout & HF & Hlen).
  destruct (Laws.for_each_returns (CurlLoop.eligible root)
              (CurlLoop.round_of (Py.strip (stdout cp)))
              (fun c s _ => CurlFacts.sync_returns _ _ _ s)
              (CurlLoop.granted st cp)) as (st2 & Hst2).
  rewrite Hst2 in *. cbn [state_of] in Hout.
  rewrite (Hlen st2 eq_refl), firstn_all in HF.
  rewrite CurlFacts.summary_exit.
  exists segs,
    (record (EvPrint false (CurlLoop.summary_line (success st2) (errors st2))) st2).
  split; [reflexivity|]. split; [|exact HF].
  unfold record. cbn [out success errors]. rewrite Hout.
  unfold CurlLoop.granted. cbn [out]. rewrite <- !app_assoc. reflexivity.
Qed.

End Facts.

End Rounds.

(* ================================================================= *)
(** ** The log of a whole run *)

Module Runs.

Import Os Json Run.

Import Trace.




End Runs.

(* ================================================================= *)
(** ** The write requests of a run: facts *)

Module Authorised.

Import Os Json Run.

Import Trace WriteSpec.

Create Rewrite HintDb wr.

#[local] Hint Rewrite Order.is_write_lookup Order.is_write_curl @Order.is_write_put
  Order.is_write_open Order.is_write_dump Order.is_write_print : wr.

Ltac in_cases H :=
  repeat (destruct H as [<-|H]); try (now destruct H).

Lemma in_firstn_all {A} (n : nat) (l : list A) (x : A) : In x (firstn n l) -> In x l.
Proof.
  intros H. rewrite <- (firstn_skipn n l). apply in_or_app. now left.
Qed.

Lemma firstn_shorter {A} (n : nat) (l : list A) : List.length (firstn n l) <= List.length l.
Proof. rewrite length_firstn. lia. Qed.

Lemma in_concat_piece {A} (seg : list A) (segs : list (list A)) :
  In seg segs -> incl seg (List.concat segs).
Proof. intros H x Hx. apply in_concat. eauto. Qed.

(** From the rounds to the run: at most one write per round, and what
    holds of the write of a round holds of every write of the run. *)
Lemma rounds_writes {A} (Q : A -> list event -> event -> Prop) (l : list A)
      (segs : list (list event)) :
  Forall2 (fun c seg => List.length (filter Log.is_write seg) <= 1 /\
                        forall e, In e seg -> Log.is_write e = true -> Q c seg e) l segs ->
  List.length (filter Log.is_write (List.concat segs)) <= List.length l /\
  forall e, In e (List.concat segs) -> Log.is_write e = true ->
            exists c seg, In c l /\ In seg segs /\ Q c seg e.
Proof.
  induction 1 as [|c seg l segs [H1 H2] _ [I1 I2]]; cbn [List.concat].
  - split; [simpl; lia|intros e []].
  - rewrite filter_app, length_app. split; [simpl; lia|].
    intros e Hin Hw. apply in_app_or in Hin. destruct Hin as [Hin|Hin].
    + exists c, seg. repeat split; [now left|now left|now apply H2].
    + destruct (I2 e Hin Hw) as (c' & seg' & Hc & Hs & HQ).
      exists c', seg'. repeat split; [now right|now right|exact HQ].
Qed.

Lemma curl_round_writes (E : Env) (TOKEN : string) (c : string * string) (seg : list event) :
  curl_visit E TOKEN c seg ->
  List.length (filter Log.is_write seg) <= 1 /\
  forall e, In e seg -> Log.is_write e = true -> curl_write TOKEN c e.
Proof.
  intros (b1 & rd & b2 & ->). unfold curl_trace, TokenSpec.timeout_note.
  destruct (wait (Some 60%Z) b1), rd; cbn [List.app];
    (split;
     [ repeat (cbn [filter]; autorewrite with wr); cbn [List.length]; lia
     | intros e Hin Hw; in_cases Hin;
       try (autorewrite with wr in Hw; discriminate Hw);
       exists b2; reflexivity ]).
Qed.

Lemma gh_round_writes (E : Env) (c : string * string) (seg : list event) :
  gh_visit E c seg ->
  List.length (filter Log.is_write seg) <= 1 /\
  forall e, In e seg -> Log.is_write e = true -> gh_write E c seg e.
Proof.
  intros (rd & b1 & b2 & ->). unfold gh_trace.
  change (Gh.gh_get_cmd ?p) with (Curl.gh_get_cmd p).
  destruct rd as [data|msg]; [destruct (wait None b1) as [p| |];
                              [destruct (wait None b2) as [q| |] eqn:Hb2| |]|];
    (split;
     [ repeat (cbn [filter]; autorewrite with wr); cbn [List.length]; lia
     | intros e Hin Hw; in_cases Hin;
       try (autorewrite with wr in Hw; discriminate Hw);
       (exists data, p, b2; rewrite Hb2; (split; [now left|reflexivity])) ]).
Qed.

Lemma no_write_phase (post : list event) :
  Phases.summary_phase post -> filter Log.is_write post = [].
Proof. intros [->|(line & ->)]; reflexivity. Qed.

(** X13: in every run of [upload_via_curl.py] each PUT is the one of an
    eligible file, waits at most 120 seconds and carries in its header
    the stripped output of the helper, which was called first and ended
    with status 0; in every run of [upload_via_gh.py] each PUT is the one
    of an eligible file, has no timeout and carries the encoding of
    bytes read from that file earlier in the run.  Neither script sends
    more PUTs than there are eligible files. *)
Theorem writes_authorised :
  (forall (E : Env) (root : list entry) (st : state E),
      exists added,
        out (state_of (Curl.main root st)) = (out st ++ added)%list /\
        List.length (filter Log.is_write added) <= List.length (CurlLoop.eligible root) /\
        forall e, In e added -> Log.is_write e = true ->
          exists cp c,
            token_at_head added cp /\ In c (CurlLoop.eligible root) /\
            curl_write (Py.strip (stdout cp)) c e)
  /\
  (forall (E : Env) (root : list entry) (st : state E),
      exists added,
        out (state_of (Gh.main root st)) = (out st ++ added)%list /\
        List.length (filter Log.is_write added)
        <= List.length (GhLoop.eligible (script_abspath E) root) /\
        forall e, In e added -> Log.is_write e = true ->
          exists c, In c (GhLoop.eligible (script_abspath E) root) /\ gh_write E c added e).
Proof.
  split.
  - intros E root st.
    assert (Hrefused :
              (forall cp, wait (Some 10%Z) (fst (spawn E Curl.token_cmd (world st))) = Completed cp ->
                          returncode cp <> 0%Z) ->
              exists added,
                out (state_of (Curl.main root st)) = (out st ++ added)%list /\
                List.length (filter Log.is_write added) <= List.length (CurlLoop.eligible root) /\
                forall e, In e added -> Log.is_write e = true ->
                  exists cp c,
                    token_at_head added cp /\ In c (CurlLoop.eligible root) /\
                    curl_write (Py.strip (stdout cp)) c e).
    { intros H. destruct (CurlFacts.main_refused root st H) as (r & line & ->).
      eexists. split; [reflexivity|]. split; [simpl; lia|].
      intros e Hin Hw. in_cases Hin; discriminate Hw. }
    destruct (wait (Some 10%Z) (fst (spawn E Curl.token_cmd (world st)))) as [cp| |] eqn:Hw;
      try (apply Hrefused; intros cp' Hcp'; congruence).
    destruct (Z.eq_dec (returncode cp) 0) as [Hrc|Hrc];
      [|apply Hrefused; intros cp' Hcp'; congruence].
    clear Hrefused.
    destruct (Rounds.curl_granted_pieces
                (fun c seg => List.length (filter Log.is_write seg) <= 1 /\
                              forall e, In e seg -> Log.is_write e = true ->
                                        curl_write (Py.strip (stdout cp)) c e)
                root st cp
                (fun c s => match Rounds.curl_round_piece (Py.strip (stdout cp)) c s with
                            | ex_intro _ seg (conj Ho Hr) =>
                                ex_intro _ seg (conj Ho (curl_round_writes E _ c seg Hr))
                            end)
                Hw Hrc) as (segs & st' & -> & Hout & HF).
    cbn [state_of]. eexists. split; [exact Hout|].
    destruct (rounds_writes (fun c _ e => curl_write (Py.strip (stdout cp)) c e)
                (CurlLoop.eligible root) segs HF) as [Hlen Hall].
    split.
    + cbn [filter]. rewrite filter_app. cbn [filter]. rewrite app_nil_r. exact Hlen.
    + intros e [<-|Hin] He; [discriminate He|].
      apply in_app_or in Hin. destruct Hin as [Hin|Hin]; [|in_cases Hin; discriminate He].
      destruct (Hall e Hin He) as (c & seg & Hc & _ & HQ).
      exists cp, c. repeat split; assumption.
  - intros E root st.
    destruct (Whole.gh_main_pieces
                (fun c seg => List.length (filter Log.is_write seg) <= 1 /\
                              forall e, In e seg -> Log.is_write e = true -> gh_write E c seg e)
                (fun c s => match Rounds.gh_round_piece c s with
                            | ex_intro _ seg (conj Ho Hr) =>
                                ex_intro _ seg (conj Ho (gh_round_writes E c seg Hr))
                            end)
                root st) as (segs & post & Hout & Hpost & HF).
    exists (List.concat segs ++ post)%list. split; [exact Hout|].
    destruct (rounds_writes (gh_write E) _ segs HF) as [Hlen Hall].
    split.
    + rewrite filter_app, (no_write_phase post Hpost), app_nil_r.
      etransitivity; [exact Hlen|apply firstn_shorter].
    + intros e Hin He. apply in_app_or in Hin. destruct Hin as [Hin|Hin].
      * destruct (Hall e Hin He) as (c & seg & Hc & Hs & data & p & b & Hopen & ->).
        exists c. split; [now apply in_firstn_all in Hc|].
        exists data, p, b. split; [|reflexivity].
        apply in_or_app. left. now apply (in_concat_piece seg segs Hs).
      * assert (Hin' : In e (filter Log.is_write post)) by (apply filter_In; now split).
        rewrite (no_write_phase post Hpost) in Hin'. destruct Hin'.
Qed.

Lemma writes_authorised_witness :
  exists added,
    out (state_of (Curl.main Demo.root (start (E := Demo.env) tt)))
    = (out (start (E := Demo.env) tt) ++ added)%list /\
    List.length (filter Log.is_write added) <= List.length (CurlLoop.eligible Demo.root) /\
    forall e, In e added -> Log.is_write e = true ->
      exists cp c,
        token_at_head added cp /\ In c (CurlLoop.eligible Demo.root) /\
        curl_write (Py.strip (stdout cp)) c e.
Proof.
  apply (proj1 writes_authorised Demo.env Demo.root (start (E := Demo.env) tt)).
Defined.

End Authorised.

(* ================================================================= *)
(** ** Which files are ever opened *)

Module Reach.

Import Os Json Run Paths.

Import Kept.






End Reach.

(* ================================================================= *)
(** ** What the exit status says *)

Module Status.

Import Os Json Run.

Import WriteSpec.





End Status.
